(** * The QC-report relay (app.py, server.py): model and properties

    Both source files implement the same HTTP relay for [POST /api/gemini]:
    [app.py] as the Flask view [gemini_proxy], [server.py] as
    [Handler.do_POST].  The relay reads a JSON request, sends one request to
    the Gemini endpoint and turns the model's free text into a JSON array.

    Python values are embedded shallowly: a [str] is the list of its Unicode
    code points, a decoded JSON document is the tree [json], an exception is
    a value of [exn] threaded through the error monad [result], and the one
    call of [urllib.request.urlopen] is a node of the interaction type
    [action], answered by the transport with a value of [fetched].  A
    handler ends in an [outcome]: an answer, or an exception that leaves
    it. *)

From Stdlib Require Import ZArith NArith Lia Bool.
From Stdlib Require Import Strings.String Strings.Ascii.
From Stdlib Require Import Floats.SpecFloat.
From stdpp Require Import base list.

Set Default Proof Using "Type".
Local Open Scope list_scope.

(** ** Python strings *)

Module PyStr.

(** A code point; a [str] is a sequence of them. *)
Definition char : Type := N.
Definition text : Type := list char.

(** An ASCII literal as a Python [str]. *)
Definition py (s : string) : text :=
  List.map N_of_ascii (list_ascii_of_string s).

Definition tick : char := 96%N.
Definition dquote : char := 34%N.
Definition squote : char := 39%N.
Definition newline : char := 10%N.

(** [str.isspace] on one code point (CPython's [_PyUnicode_IsWhitespace]). *)
Definition isspace (c : char) : bool :=
  ((9 <=? c) && (c <=? 13) || (28 <=? c) && (c <=? 32)
   || (c =? 133) || (c =? 160) || (c =? 5760)
   || (8192 <=? c) && (c <=? 8202)
   || (c =? 8232) || (c =? 8233) || (c =? 8239) || (c =? 8287)
   || (c =? 12288))%N.

(** [s.startswith(old)]. *)
Fixpoint starts_with (old s : text) : bool :=
  match old, s with
  | [], _ => true
  | _ :: _, [] => false
  | o :: old', c :: s' => (o =? c)%N && starts_with old' s'
  end.

(** The scan of [str.replace] for a non-empty [old]: occurrences are found
    from the left and do not overlap.  [skip] counts the characters of the
    occurrence just matched that are still to be passed over. *)
Fixpoint replace_from (old new : text) (skip : nat) (s : text) : text :=
  match s with
  | [] => []
  | c :: s' =>
      match skip with
      | S k => replace_from old new k s'
      | O =>
          if starts_with old s
          then new ++ replace_from old new (length old - 1) s'
          else c :: replace_from old new 0 s'
      end
  end.

(** [s.replace(old, new)].  With an empty [old] Python puts [new] before
    every character and at the end. *)
Definition replace (old new s : text) : text :=
  match old with
  | [] => new ++ flat_map (fun c => c :: new) s
  | _ :: _ => replace_from old new 0 s
  end.

(** [s.lstrip()], [s.rstrip()] and [s.strip()] without argument. *)
Fixpoint lstrip (s : text) : text :=
  match s with
  | [] => []
  | c :: s' => if isspace c then lstrip s' else s
  end.

Definition rstrip (s : text) : text := rev (lstrip (rev s)).

Definition strip (s : text) : text := rstrip (lstrip s).

(** [old in s]: [old] occurs in [s] as a contiguous piece. *)
Definition occurs (old s : text) : Prop :=
  exists a b, s = a ++ old ++ b.

(** [old in s] as a test. *)
Fixpoint contains (old s : text) : bool :=
  starts_with old s ||
  match s with
  | [] => false
  | _ :: s' => contains old s'
  end.

(** The number of backticks a text begins with. *)
Fixpoint lead (s : text) : nat :=
  match s with
  | [] => 0
  | c :: s' => if (c =? tick)%N then S (lead s') else 0
  end.

(** A text that does not begin with white space. *)
Definition clean_head (s : text) : bool :=
  match s with
  | [] => true
  | c :: _ => negb (isspace c)
  end.

(** Decimal digits of a natural number, as [str(n)] prints them. *)
Fixpoint digits_fuel (fuel n : nat) (acc : text) : text :=
  match fuel with
  | O => acc
  | S f =>
      let d := N.of_nat (48 + n mod 10) in
      if n <? 10 then d :: acc else digits_fuel f (n / 10) (d :: acc)
  end.

Definition str_of_nat (n : nat) : text := digits_fuel (S n) n [].

(** [s.count(c, 0, pos)] for a single character. *)
Definition count_upto (c : char) (pos : nat) (s : text) : nat :=
  length (filter (fun x => x = c) (take pos s)).

(** [pos - s.rfind(c, 0, pos)], where [rfind] is [-1] when [c] is absent:
    one more than the number of characters after the last [c] of
    [s[0:pos]]. *)
Fixpoint since_last (c : char) (s : text) : nat :=
  match s with
  | [] => 1
  | x :: s' => if existsb (N.eqb c) s' then since_last c s'
               else if (x =? c)%N then S (length s') else S (S (length s'))
  end.

End PyStr.

(** ** Python values, exceptions and the interpreter's library *)

Module PyVal.
Import PyStr.

(** What [json.loads] builds: [None], [bool], [int], [float] (an IEEE
    binary64), [str], [list], and [dict] with [str] keys in insertion order
    (each key once). *)
#[warnings="-register-all"]
Inductive json : Type :=
  | JNull
  | JBool (b : bool)
  | JInt (n : Z)
  | JFloat (f : spec_float)
  | JStr (s : text)
  | JArr (items : list json)
  | JObj (fields : list (text * json)).

Definition bytes : Type := list Byte.byte.

(** The index of a subscription [v[k]]: a [str] key or a position. *)
Inductive subscript : Type :=
  | Key (k : text)
  | Idx (i : nat).

(** The exceptions raised by the interpreter and its library, apart from
    those of [urllib]: [JSONDecodeError] carries [msg], [doc] and [pos];
    [IndexError] records whether a [str] (or a [list]) was indexed;
    [OtherException] is any other subclass of [Exception], given by its
    [str()]. *)
Inductive exn : Type :=
  | JSONDecodeError (msg doc : text) (pos : nat)
  | KeyError (k : subscript)
  | IndexError (of_str : bool)
  | TypeError (v : json) (k : subscript)
  | AttributeError (v : json) (attr : text)
  | OtherException (msg : text).

(** A computation that returns or raises. *)
Inductive result (A : Type) : Type :=
  | Ok (a : A)
  | Raise (e : exn).
Arguments Ok {A} a.
Arguments Raise {A} e.

#[export] Instance result_ret : MRet result := fun _ a => Ok a.
#[export] Instance result_bind : MBind result := fun _ _ k m =>
  match m with
  | Ok a => k a
  | Raise e => Raise e
  end.

(** The parts of CPython the relay calls and does not define: the two
    overloads of [json.loads], the formatting of a value that is not a [str]
    inside an f-string, and the message of an interpreter-raised
    exception. *)
Record runtime : Type := {
  json_loads : text -> result json;
  json_loads_bytes : bytes -> result json;
  format_value : json -> text;
  describe : exn -> text
}.

(** [bool(v)]. *)
Definition truthy (v : json) : bool :=
  match v with
  | JNull => false
  | JBool b => b
  | JInt n => negb (n =? 0)%Z
  | JFloat (S754_zero _) => false
  | JFloat _ => true
  | JStr [] => false
  | JStr (_ :: _) => true
  | JArr [] => false
  | JArr (_ :: _) => true
  | JObj [] => false
  | JObj (_ :: _) => true
  end.

(** [isinstance(v, list)]. *)
Definition is_list (v : json) : bool :=
  match v with
  | JArr _ => true
  | _ => false
  end.

(** [d.get(key, default)] on the fields of a [dict]. *)
Fixpoint dict_get (fields : list (text * json)) (key : text) (default : json)
  : json :=
  match fields with
  | [] => default
  | (k, v) :: rest => if decide (k = key) then v else dict_get rest key default
  end.

Definition has_key (fields : list (text * json)) (key : text) : bool :=
  existsb (fun kv => bool_decide (kv.1 = key)) fields.

(** [v.get(key, default)]: only a [dict] has the method. *)
Definition get (v : json) (key : text) (default : json) : result json :=
  match v with
  | JObj fields => Ok (dict_get fields key default)
  | _ => Raise (AttributeError v (py "get"))
  end.

(** [v[k]]. *)
Definition getitem (v : json) (k : subscript) : result json :=
  match v, k with
  | JObj fields, Key s =>
      if has_key fields s then Ok (dict_get fields s JNull)
      else Raise (KeyError k)
  | JObj _, Idx _ => Raise (KeyError k)
  | JArr items, Idx i =>
      match items !! i with
      | Some x => Ok x
      | None => Raise (IndexError false)
      end
  | JStr s, Idx i =>
      match s !! i with
      | Some c => Ok (JStr [c])
      | None => Raise (IndexError true)
      end
  | _, _ => Raise (TypeError v k)
  end.

(** [v.replace(old, new)] and [v.strip()]: only a [str] has them. *)
Definition str_replace (v : json) (old new : text) : result json :=
  match v with
  | JStr s => Ok (JStr (replace old new s))
  | _ => Raise (AttributeError v (py "replace"))
  end.

Definition str_strip (v : json) : result text :=
  match v with
  | JStr s => Ok (strip s)
  | _ => Raise (AttributeError v (py "strip"))
  end.

(** [f"{v}"]. *)
Definition py_str (rt : runtime) (v : json) : text :=
  match v with
  | JStr s => s
  | _ => format_value rt v
  end.

(** The text [JSONDecodeError.__init__] hands to [ValueError]: the message,
    then line [doc.count("\n", 0, pos) + 1], column
    [pos - doc.rfind("\n", 0, pos)] and [pos]. *)
Definition decode_error_text (msg doc : text) (pos : nat) : text :=
  msg ++ py ": line " ++ str_of_nat (count_upto newline pos doc + 1)
      ++ py " column " ++ str_of_nat (since_last newline (take pos doc))
      ++ py " (char " ++ str_of_nat pos ++ py ")".

(** [str(e)].  A [JSONDecodeError] prints its message and the position,
    never [doc]; a [KeyError] prints the [repr] of the key (the relay only
    uses keys without quotes or escapes). *)
Definition exn_str (rt : runtime) (e : exn) : text :=
  match e with
  | JSONDecodeError msg doc pos => decode_error_text msg doc pos
  | KeyError (Key k) => squote :: k ++ [squote]
  | KeyError (Idx i) => str_of_nat i
  | IndexError true => py "string index out of range"
  | IndexError false => py "list index out of range"
  | OtherException msg => msg
  | _ => describe rt e
  end.

End PyVal.

(** ** The code shared by both relays *)

Module Relay.
Import PyStr PyVal.

(** The [urllib.request.Request] handed to [urlopen]: [data] is the value
    that [json.dumps(...).encode("utf-8")] serialises, [timeout] the argument
    of [urlopen]. *)
Record Request : Type := {
  url : text;
  data : json;
  headers : list (text * text);
  method : text;
  timeout : Z
}.

(** The HTTP answer of the relay: a status and a JSON body (no body on the
    404 of [server.py]). *)
Record Response : Type := {
  status : Z;
  body : option json
}.

(** How a handler ends: with an answer, or with an exception that no
    clause of the handler catches. *)
Inductive outcome : Type :=
  | Answer (r : Response)
  | Escapes (e : exn).
Coercion Answer : Response >-> outcome.

(** What [urllib.request.urlopen] and [response.read()] come back with:
    the bytes of a 2xx response; an [HTTPError] with [e.code] and with what
    [e.read().decode()] gives when the clause for it runs, the text of the
    body or the exception raised (a body that is not UTF-8, say); a
    [URLError] with [str(e.reason)]; or another exception (a timeout while
    reading, say). *)
Inductive fetched : Type :=
  | Fetched (raw : bytes)
  | HTTPError (code : Z) (err_body : result text)
  | URLError (reason : text)
  | Failed (e : exn).

(** A handler run: it answers, or calls [urlopen] once more and goes on
    with what the transport gives back. *)
Inductive action (A : Type) : Type :=
  | Done (a : A)
  | UrlOpen (req : Request) (k : fetched -> action A).
Arguments Done {A} a.
Arguments UrlOpen {A} req k.

(** Running a handler against a transport: the answer, and the requests
    that reached [urlopen], in order. *)
Fixpoint run {A} (transport : Request -> fetched) (a : action A)
  : A * list Request :=
  match a with
  | Done r => (r, [])
  | UrlOpen req k =>
      let '(r, calls) := run transport (k (transport req)) in
      (r, req :: calls)
  end.

Definition answer {A} (transport : Request -> fetched) (a : action A) : A :=
  (run transport a).1.

Definition calls {A} (transport : Request -> fetched) (a : action A)
  : list Request :=
  (run transport a).2.

(** The same run with every answer passed through [f]. *)
Fixpoint action_map {A B} (f : A -> B) (a : action A) : action B :=
  match a with
  | Done r => Done (f r)
  | UrlOpen req k => UrlOpen req (fun out => action_map f (k out))
  end.

(** What the code before the call decides: an early [return], or the request
    to send. *)
Inductive stage : Type :=
  | Return (r : Response)
  | Proceed (req : Request).

(** [a or b], with [b] evaluated only when [a] is falsy. *)
Definition py_or (a : json) (b : result json) : result json :=
  if truthy a then Ok a else b.

(** [os.environ.get(name)]: [None] when the variable is unset. *)
Definition environ_get (var : option text) : json :=
  match var with
  | Some s => JStr s
  | None => JNull
  end.

(** A JSON answer [{key: value}] with a status: [jsonify(...), code] in
    [app.py], [send_response(code)] and [json.dumps(...)] in [server.py]. *)
Definition reply (code : Z) (key : string) (value : json) : Response :=
  {| status := code; body := Some (JObj [(py key, value)]) |}.

Definition error_reply (code : Z) (message : text) : Response :=
  reply code "error" (JStr message).

Definition quoted (s : string) : text := dquote :: py s ++ [dquote].

(** The extraction prompt, the same text in both files. *)
Definition PROMPT : text :=
  concat [
    py "You are a data extraction assistant. ";
    py "Extract ALL product entries from this ";
    py "Quality Control Pre-Dispatched Product Report image."; [newline; newline];
    py "For EACH product row in the table extract:"; [newline];
    py "- variety: product name + weight (e.g. "; quoted "Rolled Oats 800gm";
    py ")"; [newline];
    py "- batch_code"; [newline];
    py "- mfg_date"; [newline];
    py "- expiry_date"; [newline];
    py "- mrp (number only)"; [newline];
    py "- defects_status (Yes or No)"; [newline];
    py "- total_dispatch_ctn (number)"; [newline];
    py "- party_name (if visible)"; [newline; newline];
    py "Return ONLY a raw JSON array. No markdown, no backticks, no extra text. Example:";
    [newline];
    py "[{"; quoted "variety"; py ":"; quoted "Rolled Oats 800gm"; py ",";
    quoted "batch_code"; py ":"; quoted "AK19K26R800D"; py ",";
    quoted "mfg_date"; py ":"; quoted "26-11-2025"; py ",";
    quoted "expiry_date"; py ":"; quoted "25-11-2026"; py ",";
    quoted "mrp"; py ":"; quoted "405"; py ",";
    quoted "defects_status"; py ":"; quoted "No"; py ",";
    quoted "total_dispatch_ctn"; py ":"; quoted "5"; py ",";
    quoted "party_name"; py ":"; quoted "Dautal Trading"; py "}]";
    [newline; newline];
    py "Use empty string "; [dquote; dquote]; py " for any field not visible."
  ].

(** The float [0.1] of [generationConfig]. *)
Definition temperature : spec_float :=
  S754_finite false 7205759403792794 (-56).

(** [gemini_payload], with the token limit of the file at hand. *)
Definition gemini_payload (mime_type image_b64 : json) (max_tokens : Z) : json :=
  JObj [
    (py "contents", JArr [
      JObj [(py "parts", JArr [
        JObj [(py "inline_data",
               JObj [(py "mime_type", mime_type); (py "data", image_b64)])];
        JObj [(py "text", JStr PROMPT)]
      ])]
    ]);
    (py "generationConfig",
     JObj [(py "temperature", JFloat temperature);
           (py "maxOutputTokens", JInt max_tokens)])
  ].

(** The f-string of the URL, with the model name of the file at hand. *)
Definition gemini_url (rt : runtime) (model : string) (api_key : json) : text :=
  py "https://generativelanguage.googleapis.com/v1beta/models/" ++ py model
    ++ py ":generateContent?key=" ++ py_str rt api_key.

Definition gemini_request (rt : runtime) (model : string) (max_tokens seconds : Z)
    (api_key image_b64 mime_type : json) : Request :=
  {| url := gemini_url rt model api_key;
     data := gemini_payload mime_type image_b64 max_tokens;
     headers := [(py "Content-Type", py "application/json")];
     method := py "POST";
     timeout := seconds |}.

Definition fence_json : text := py "```json".
Definition fence : text := py "```".

(** [text.replace("```json", "").replace("```", "").strip()] on a [str]. *)
Definition normalize (t : text) : text :=
  strip (replace fence [] (replace fence_json [] t)).

(** The same expression on whatever [text] is: the first method call fails
    on a value that is not a [str]. *)
Definition clean_of (v : json) : result text :=
  once ← str_replace v fence_json [];
  twice ← str_replace once fence [];
  str_strip twice.

(** [rows] after [if not isinstance(rows, list): rows = [rows]]. *)
Definition as_rows (rows : json) : json :=
  if negb (is_list rows) then JArr [rows] else rows.

(** [result["candidates"][0]["content"]["parts"][0]["text"]]. *)
Definition envelope_text (result : json) : PyVal.result json :=
  candidates ← getitem result (Key (py "candidates"));
  candidate ← getitem candidates (Idx 0);
  content ← getitem candidate (Key (py "content"));
  parts ← getitem content (Key (py "parts"));
  part ← getitem parts (Idx 0);
  getitem part (Key (py "text")).

(** [rows] as [json.loads(clean)] returns it, from the bytes read. *)
Definition loaded_rows (rt : runtime) (raw : bytes) : result json :=
  result ← json_loads_bytes rt raw;
  text ← envelope_text result;
  clean ← clean_of text;
  json_loads rt clean.

(** The body of [with urlopen(...) as response:], from the bytes read. *)
Definition on_response (rt : runtime) (raw : bytes) : result Response :=
  rows ← loaded_rows rt raw;
  mret (reply 200 "rows" (as_rows rows)).

(** [msg] of the [HTTPError] clause, once [err_body] is there: the inner
    [try] with its [except Exception: msg = err_body]. *)
Definition upstream_message (rt : runtime) (err_body : text) : json :=
  match
    err_json ← json_loads rt err_body;
    error ← get err_json (py "error") (JObj []);
    get error (py "message") (JStr err_body)
  with
  | Ok msg => msg
  | Raise _ => JStr err_body
  end.

Definition on_http_error (rt : runtime) (code : Z) (err_body : text) : Response :=
  error_reply code
    (py "Gemini API error: " ++ py_str rt (upstream_message rt err_body)).

Definition on_url_error (reason : text) : Response :=
  error_reply 502 (py "Could not reach Gemini API: " ++ reason).

Definition on_parse_error (rt : runtime) (e : exn) : Response :=
  error_reply 500 (py "Failed to parse Gemini response: " ++ exn_str rt e).

Definition on_exception (rt : runtime) (e : exn) : Response :=
  error_reply 500 (exn_str rt e).

(** The last two [except] clauses of [app.py], for an exception that is not
    [urllib]'s: the parse errors, then [Exception]. *)
Definition except_clauses (rt : runtime) (e : exn) : Response :=
  match e with
  | JSONDecodeError _ _ _ | KeyError _ | IndexError _ => on_parse_error rt e
  | _ => on_exception rt e
  end.

End Relay.

(** ** app.py *)

Module App.
Import PyStr PyVal Relay.

Definition GEMINI_MODEL : string := "gemini-2.5-flash-preview-04-17".

(** [gemini_proxy] up to the call of [urlopen].  [get_json] is what
    [request.get_json()] returns or raises, [key_var] the environment
    variable [GEMINI_API_KEY]. *)
Definition before_urlopen (rt : runtime) (key_var : option text)
    (get_json : result json) : result stage :=
  payload ← get_json;
  if negb (truthy payload)
  then mret (Return (error_reply 400 (py "Invalid JSON body")))
  else
    api_key ← py_or (environ_get key_var) (get payload (py "apiKey") (JStr []));
    image_b64 ← get payload (py "imageB64") (JStr []);
    mime_type ← get payload (py "mimeType") (JStr (py "image/jpeg"));
    if negb (truthy api_key)
    then mret (Return (error_reply 400 (py
      "Gemini API key not configured. Set GEMINI_API_KEY environment variable on Render.")))
    else if negb (truthy image_b64)
    then mret (Return (error_reply 400 (py "No image data received")))
    else mret (Proceed
      (gemini_request rt GEMINI_MODEL 4096 120 api_key image_b64 mime_type)).

(** What follows [urlopen] in [gemini_proxy]: the [with] body, or the
    clause for what was raised.  The clauses belong to the one [try], so an
    exception raised inside a clause is caught by none of them: when
    [e.read().decode()] fails in the [HTTPError] clause, the exception
    leaves the view. *)
Definition after_urlopen (rt : runtime) (out : fetched) : outcome :=
  match out with
  | Fetched raw =>
      match on_response rt raw with
      | Ok r => Answer r
      | Raise e => Answer (except_clauses rt e)
      end
  | HTTPError code read =>
      match read with
      | Ok err_body => Answer (on_http_error rt code err_body)
      | Raise e => Escapes e
      end
  | URLError reason => Answer (on_url_error reason)
  | Failed e => Answer (except_clauses rt e)
  end.

(** [gemini_proxy]: one [try] around everything. *)
Definition gemini_proxy (rt : runtime) (key_var : option text)
    (get_json : result json) : action outcome :=
  match before_urlopen rt key_var get_json with
  | Raise e => Done (Answer (except_clauses rt e))
  | Ok (Return r) => Done (Answer r)
  | Ok (Proceed req) => UrlOpen req (fun out => Done (after_urlopen rt out))
  end.

End App.

(** ** server.py *)

Module Server.
Import PyStr PyVal Relay.

Definition MODEL : string := "gemini-2.5-flash".

(** [Handler._error]. *)
Definition _error (code : Z) (message : text) : Response :=
  error_reply code message.

(** [do_POST] on [/api/gemini] up to the call of [urlopen].  [rfile] is
    what [self.rfile.read(int(self.headers.get("Content-Length", 0)))]
    returns or raises. *)
Definition before_urlopen (rt : runtime) (rfile : result bytes) : result stage :=
  body ← rfile;
  payload ← json_loads_bytes rt body;
  api_key ← get payload (py "apiKey") (JStr []);
  image_b64 ← get payload (py "imageB64") (JStr []);
  mime_type ← get payload (py "mimeType") (JStr (py "image/jpeg"));
  if negb (truthy api_key)
  then mret (Return (_error 400 (py "Missing apiKey")))
  else if negb (truthy image_b64)
  then mret (Return (_error 400 (py "Missing imageB64")))
  else mret (Proceed (gemini_request rt MODEL 2048 60 api_key image_b64 mime_type)).

(** The inner [try] of [do_POST] with its three clauses: the answer it
    sends, or the exception it lets through, one that no clause names or
    one raised inside a clause ([e.read().decode()] in the [HTTPError]
    clause). *)
Definition inner_try (rt : runtime) (out : fetched) : result Response :=
  match out with
  | Fetched raw =>
      match on_response rt raw with
      | Ok r => Ok r
      | Raise e =>
          match e with
          | JSONDecodeError _ _ _ | KeyError _ | IndexError _ =>
              Ok (_error 500 (py "Failed to parse Gemini response: " ++ exn_str rt e))
          | _ => Raise e
          end
      end
  | HTTPError code read =>
      err_body ← read;
      mret (_error code
              (py "Gemini API error: " ++ py_str rt (upstream_message rt err_body)))
  | URLError reason => Ok (_error 502 (py "Could not reach Gemini API: " ++ reason))
  | Failed e =>
      match e with
      | JSONDecodeError _ _ _ | KeyError _ | IndexError _ =>
          Ok (_error 500 (py "Failed to parse Gemini response: " ++ exn_str rt e))
      | _ => Raise e
      end
  end.

(** What follows [urlopen] in [do_POST]: what the inner [try] lets through
    reaches the outer [except Exception]. *)
Definition after_urlopen (rt : runtime) (out : fetched) : Response :=
  match inner_try rt out with
  | Ok r => r
  | Raise e => _error 500 (exn_str rt e)
  end.

(** [Handler.do_POST].  The variable [GEMINI_API_KEY] is never read. *)
Definition do_POST (rt : runtime) (key_var : option text) (path : text)
    (rfile : result bytes) : action Response :=
  if decide (path = py "/api/gemini") then
    match before_urlopen rt rfile with
    | Raise e => Done (_error 500 (exn_str rt e))
    | Ok (Return r) => Done r
    | Ok (Proceed req) => UrlOpen req (fun out => Done (after_urlopen rt out))
    end
  else Done {| status := 404; body := None |}.

End Server.

(** ** One invocation of either relay *)

Module Invocation.
Import PyStr PyVal Relay.

(** A request to [POST /api/gemini] as either file receives it, with the
    value of [GEMINI_API_KEY] in the process that serves it. *)
Inductive invocation : Type :=
  | AppCall (key_var : option text) (get_json : result json)
  | ServerCall (key_var : option text) (path : text) (rfile : result bytes).

Definition handle (rt : runtime) (i : invocation) : action outcome :=
  match i with
  | AppCall key_var get_json => App.gemini_proxy rt key_var get_json
  | ServerCall key_var path rfile =>
      action_map Answer (Server.do_POST rt key_var path rfile)
  end.

(** What follows the call in the file of the invocation. *)
Definition after_call (rt : runtime) (i : invocation) (out : fetched) : outcome :=
  match i with
  | AppCall _ _ => App.after_urlopen rt out
  | ServerCall _ _ _ => Answer (Server.after_urlopen rt out)
  end.

(** The decoded request body: [request.get_json()] in [app.py],
    [json.loads(body)] in [server.py]. *)
Definition payload_of (rt : runtime) (i : invocation) : result json :=
  match i with
  | AppCall _ get_json => get_json
  | ServerCall _ _ rfile => body ← rfile; json_loads_bytes rt body
  end.

(** The request is for the relay's route ([app.py] is only entered on it). *)
Definition on_route (i : invocation) : Prop :=
  match i with
  | AppCall _ _ => True
  | ServerCall _ path _ => path = py "/api/gemini"
  end.

Definition key_var_of (i : invocation) : option text :=
  match i with
  | AppCall key_var _ => key_var
  | ServerCall key_var _ _ => key_var
  end.

(** The three inputs read from the fields of the request. *)
Definition supplied_key (fields : list (text * json)) : json :=
  dict_get fields (py "apiKey") (JStr []).
Definition image_of (fields : list (text * json)) : json :=
  dict_get fields (py "imageB64") (JStr []).
Definition mime_of (fields : list (text * json)) : json :=
  dict_get fields (py "mimeType") (JStr (py "image/jpeg")).

(** The credential each file ends up with. *)
Definition credential (i : invocation) (fields : list (text * json)) : json :=
  match i with
  | AppCall key_var _ =>
      if truthy (environ_get key_var) then environ_get key_var
      else supplied_key fields
  | ServerCall _ _ _ => supplied_key fields
  end.

(** The request each file builds from a credential and the fields. *)
Definition request_with (rt : runtime) (i : invocation) (api_key : json)
    (fields : list (text * json)) : Request :=
  match i with
  | AppCall _ _ =>
      gemini_request rt App.GEMINI_MODEL 4096 120 api_key
        (image_of fields) (mime_of fields)
  | ServerCall _ _ _ =>
      gemini_request rt Server.MODEL 2048 60 api_key
        (image_of fields) (mime_of fields)
  end.

End Invocation.

(** ** A concrete interpreter for worked runs *)

Module Sample.
Import PyStr PyVal Relay Invocation.

(** ASCII text as bytes. *)
Definition encode (t : text) : bytes :=
  List.map (fun c => default Byte.x00 (Byte.of_N c)) t.

Definition same_bytes (a b : bytes) : bool :=
  bool_decide (List.map Byte.to_N a = List.map Byte.to_N b).

(** A JSON string literal for printable ASCII: quote, backslash and newline
    are escaped. *)
Definition json_quote (t : text) : text :=
  dquote :: flat_map (fun c =>
    if (c =? dquote)%N then [92; 34]%N
    else if (c =? 92)%N then [92; 92]%N
    else if (c =? newline)%N then [92; 110]%N
    else [c]) t ++ [dquote].

(** The Gemini envelope around one text, as a value and as a document. *)
Definition envelope (v : json) : json :=
  JObj [(py "candidates", JArr [
    JObj [(py "content", JObj [(py "parts", JArr [JObj [(py "text", v)]])])]])].

Definition envelope_doc (t : text) : text :=
  py "{" ++ quoted "candidates" ++ py ": [{" ++ quoted "content" ++ py ": {"
    ++ quoted "parts" ++ py ": [{" ++ quoted "text" ++ py ": " ++ json_quote t
    ++ py "}]}}]}".

Definition upstream_body (t : text) : bytes := encode (envelope_doc t).

(** Texts of the model used in the worked runs. *)
Definition text_five : text := py "5".
Definition text_prose : text := py "hello world".
Definition doc_ab : text := py "[" ++ quoted "ab" ++ py "]".
Definition doc_a_fence_b : text := py "[" ++ quoted "a```b" ++ py "]".
Definition text_fenced_ticks : text :=
  fence_json ++ [newline] ++ doc_a_fence_b ++ [newline] ++ fence.
Definition doc_row : text :=
  py "{" ++ quoted "variety" ++ py ": " ++ quoted "Oats" ++ py "}".
Definition row : json := JObj [(py "variety", JStr (py "Oats"))].
Definition text_fenced_rows : text :=
  fence_json ++ [newline] ++ py "[" ++ doc_row ++ py "]" ++ [newline] ++ fence.
Definition doc_rate_limited : text :=
  py "{" ++ quoted "error" ++ py ":{" ++ quoted "message" ++ py ":"
    ++ quoted "rate limited" ++ py "}}".

(** Request bodies used in the worked runs. *)
Definition body_full : text :=
  py "{" ++ quoted "apiKey" ++ py ": " ++ quoted "REQ" ++ py ", "
    ++ quoted "imageB64" ++ py ": " ++ quoted "QUJD" ++ py "}".
Definition fields_full : list (text * json) :=
  [(py "apiKey", JStr (py "REQ")); (py "imageB64", JStr (py "QUJD"))].
Definition body_no_image : text :=
  py "{" ++ quoted "apiKey" ++ py ": " ++ quoted "REQ" ++ py "}".
Definition fields_no_image : list (text * json) :=
  [(py "apiKey", JStr (py "REQ"))].
Definition body_explicit_mime : text :=
  py "{" ++ quoted "apiKey" ++ py ": " ++ quoted "REQ" ++ py ", "
    ++ quoted "imageB64" ++ py ": " ++ quoted "QUJD" ++ py ", "
    ++ quoted "mimeType" ++ py ": " ++ quoted "image/jpeg" ++ py "}".

(** [json.loads] on a [str], as a table: the documents above with the
    values CPython returns for them.  The one other text the worked runs
    decode is the prose [hello world], which starts no JSON value: CPython
    raises [Expecting value] at character 0, the answer given here to every
    text outside the table. *)
Definition str_documents : list (text * json) :=
  [ (text_five, JInt 5);
    (doc_ab, JArr [JStr (py "ab")]);
    (doc_a_fence_b, JArr [JStr (py "a```b")]);
    (doc_row, row);
    (py "[" ++ doc_row ++ py "]", JArr [row]);
    (doc_rate_limited,
     JObj [(py "error", JObj [(py "message", JStr (py "rate limited"))])]) ].

Fixpoint find_doc {K} (same : K -> K -> bool) (table : list (K * json)) (d : K)
  : option json :=
  match table with
  | [] => None
  | (k, v) :: rest => if same k d then Some v else find_doc same rest d
  end.

Definition loads (t : text) : result json :=
  match find_doc (fun a b => bool_decide (a = b)) str_documents t with
  | Some v => Ok v
  | None => Raise (JSONDecodeError (py "Expecting value") t 0)
  end.

(** [json.loads] on [bytes], as a table: the envelopes of the texts above
    and the request bodies, with the values CPython returns for them.  The
    only other bytes the worked runs decode are those of the prose
    [hello world], which start no JSON value. *)
Definition bytes_documents : list (bytes * json) :=
  List.map (fun t => (upstream_body t, envelope (JStr t)))
    [text_five; text_prose; doc_ab; text_fenced_ticks; doc_row; text_fenced_rows]
  ++ [ (encode body_full, JObj fields_full);
       (encode body_no_image, JObj fields_no_image);
       (encode body_explicit_mime,
        JObj (fields_full ++ [(py "mimeType", JStr (py "image/jpeg"))])) ].

Definition loads_bytes (b : bytes) : result json :=
  match find_doc same_bytes bytes_documents b with
  | Some v => Ok v
  | None => Raise (JSONDecodeError (py "Expecting value") [] 0)
  end.

Definition type_name (v : json) : text :=
  match v with
  | JNull => py "NoneType"
  | JBool _ => py "bool"
  | JInt _ => py "int"
  | JFloat _ => py "float"
  | JStr _ => py "str"
  | JArr _ => py "list"
  | JObj _ => py "dict"
  end.

(** [str()] of the values whose text does not depend on nested [repr]s. *)
Definition format_simple (v : json) : text :=
  match v with
  | JNull => py "None"
  | JBool true => py "True"
  | JBool false => py "False"
  | JInt n => (if (n <? 0)%Z then py "-" else []) ++ str_of_nat (Z.abs_nat n)
  | JStr s => s
  | _ => py "<" ++ type_name v ++ py ">"
  end.

(** The messages CPython gives an [AttributeError] and a [TypeError], the
    two exceptions [exn_str] asks about. *)
Definition describe_exn (e : exn) : text :=
  match e with
  | AttributeError v attr =>
      [squote] ++ type_name v ++ py "' object has no attribute '" ++ attr
        ++ [squote]
  | TypeError (JArr _) _ => py "list indices must be integers or slices, not str"
  | TypeError (JStr _) _ => py "string indices must be integers, not 'str'"
  | TypeError v _ => [squote] ++ type_name v ++ py "' object is not subscriptable"
  | _ => []
  end.

Definition python : runtime :=
  {| json_loads := loads;
     json_loads_bytes := loads_bytes;
     format_value := format_simple;
     describe := describe_exn |}.

(** Transports: one that answers every request with the same bytes, one
    that rejects every request with the same status and body, and one that
    cannot reach the upstream. *)
Definition replies (raw : bytes) : Request -> fetched := fun _ => Fetched raw.
Definition rejects (code : Z) (err_body : text) : Request -> fetched :=
  fun _ => HTTPError code (Ok err_body).
Definition unreachable (reason : text) : Request -> fetched :=
  fun _ => URLError reason.

End Sample.

(** ** Notions used to state the properties *)

Module Spec.
Import PyStr PyVal Relay Invocation.

(** The field [key] of a JSON answer, when it has one. *)
Definition field (key : string) (r : Response) : option json :=
  match body r with
  | Some (JObj fields) =>
      if has_key fields (py key) then Some (dict_get fields (py key) JNull)
      else None
  | _ => None
  end.

(** The run sent exactly one request, and its URL ends in [?key=] followed
    by the credential [api_key] as the f-string prints it. *)
Definition sent_with (rt : runtime) (tr : Request -> fetched)
    (i : invocation) (api_key : json) : Prop :=
  exists req,
    calls tr (handle rt i) = [req] /\
    (py "?key=" ++ py_str rt api_key) `suffix_of` url req.

(** Following the words of the interface: the [error.message] field of an
    upstream error body that is JSON of that shape. *)
Definition error_message_field (rt : runtime) (err_body : text) : option json :=
  match json_loads rt err_body with
  | Ok (JObj fields) =>
      if has_key fields (py "error") then
        match dict_get fields (py "error") JNull with
        | JObj inner =>
            if has_key inner (py "message")
            then Some (dict_get inner (py "message") JNull)
            else None
        | _ => None
        end
      else None
  | _ => None
  end.

(** [urllib] raises [HTTPError] only for a status outside 200..299. *)
Definition http_errors_are_failures (tr : Request -> fetched) : Prop :=
  forall req code err_body,
    tr req = HTTPError code err_body -> ~ (200 <= code < 300)%Z.

(** The MIME type tagged on the inlined image of an upstream payload:
    [payload["contents"][0]["parts"][0]["inline_data"]["mime_type"]]. *)
Definition inline_mime_type (payload : json) : result json :=
  contents ← getitem payload (Key (py "contents"));
  content ← getitem contents (Idx 0);
  parts ← getitem content (Key (py "parts"));
  part ← getitem parts (Idx 0);
  inline_data ← getitem part (Key (py "inline_data"));
  getitem inline_data (Key (py "mime_type")).

(** The status and a field of the answer a handler ends in, if it ends in
    one. *)
Definition answer_status (o : outcome) : option Z :=
  match o with
  | Answer r => Some (status r)
  | Escapes _ => None
  end.

Definition answer_field (key : string) (o : outcome) : option json :=
  match o with
  | Answer r => field key r
  | Escapes _ => None
  end.

(** Following the words of the contract: the credential resolved from the
    process-wide configuration value first, falling back to the value
    supplied in the request. *)
Definition contract_credential (i : invocation) (fields : list (text * json))
  : json :=
  if truthy (environ_get (key_var_of i)) then environ_get (key_var_of i)
  else supplied_key fields.

(** The fields of a request with the default MIME type written out. *)
Definition explicit_mime (fields : list (text * json)) : list (text * json) :=
  fields ++ [(py "mimeType", JStr (py "image/jpeg"))].

(** Two invocations of the same file, in the same process, on the same
    path. *)
Definition same_endpoint (i i' : invocation) : Prop :=
  match i, i' with
  | AppCall key_var _, AppCall key_var' _ => key_var = key_var'
  | ServerCall key_var path _, ServerCall key_var' path' _ =>
      key_var = key_var' /\ path = path'
  | _, _ => False
  end.

(** The exceptions a subscription [v[k]] raises. *)
Definition subscript_error (e : exn) : Prop :=
  match e with
  | KeyError _ | IndexError _ | TypeError _ _ => True
  | _ => False
  end.

End Spec.

(** ** app.py: the status route *)

Module AppRoutes.
Import PyStr PyVal Relay.

(** [status]: [jsonify({"keyConfigured": bool(os.environ.get(...))})]. *)
Definition status (key_var : option text) : Response :=
  reply 200 "keyConfigured" (JBool (truthy (environ_get key_var))).

End AppRoutes.

(** ** server.py: what the handlers write *)

Module ServerWire.
Import PyStr PyVal Relay.

(** One call on the handler's output side: [send_response], [send_header],
    [end_headers], [wfile.write] of literal bytes or of
    [json.dumps(j).encode()]. *)
Inductive sent : Type :=
  | SendResponse (code : Z)
  | SendHeader (name value : text)
  | EndHeaders
  | Write (data : bytes)
  | WriteJson (j : json).

(** [Handler.send_cors_headers]. *)
Definition send_cors_headers : list sent :=
  [ SendHeader (py "Access-Control-Allow-Origin") (py "*");
    SendHeader (py "Access-Control-Allow-Methods") (py "POST, GET, OPTIONS");
    SendHeader (py "Access-Control-Allow-Headers") (py "Content-Type") ].

(** [Handler.do_OPTIONS]. *)
Definition do_OPTIONS : list sent :=
  [SendResponse 200] ++ send_cors_headers ++ [EndHeaders].

(** What [open(html_path, "rb")] and [f.read()] come to. *)
Inductive file_read : Type :=
  | Content (content : bytes)
  | FileNotFoundError
  | ReadFails (e : exn).

(** [Handler.do_GET].  The file is read before anything is sent; an
    exception other than [FileNotFoundError] leaves the handler. *)
Definition do_GET (path : text) (file : file_read) : result (list sent) :=
  if bool_decide (path = py "/" \/ path = py "/index.html") then
    match file with
    | Content content =>
        Ok ([SendResponse 200;
             SendHeader (py "Content-Type") (py "text/html; charset=utf-8")]
            ++ send_cors_headers ++ [EndHeaders; Write content])
    | FileNotFoundError =>
        Ok [SendResponse 404; EndHeaders;
            Write (list_byte_of_string "index.html not found")]
    | ReadFails e => Raise e
    end
  else Ok [SendResponse 404; EndHeaders].

(** [Handler._error], call by call. *)
Definition _error (code : Z) (message : text) : list sent :=
  [SendResponse code; SendHeader (py "Content-Type") (py "application/json")]
  ++ send_cors_headers
  ++ [EndHeaders; WriteJson (JObj [(py "error", JStr message)])].

(** The success block of [do_POST], call by call. *)
Definition send_rows (rows : json) : list sent :=
  [SendResponse 200; SendHeader (py "Content-Type") (py "application/json")]
  ++ send_cors_headers
  ++ [EndHeaders; WriteJson (JObj [(py "rows", rows)])].

(** The calls behind an answer of [Server.do_POST]: a JSON answer goes out
    as [_error] and the success block send it, the answer without body as
    [send_response(404)] and [end_headers()]. *)
Definition transmit (r : Response) : list sent :=
  match body r with
  | Some j =>
      [SendResponse (status r);
       SendHeader (py "Content-Type") (py "application/json")]
      ++ send_cors_headers ++ [EndHeaders; WriteJson j]
  | None => [SendResponse (status r); EndHeaders]
  end.

(** [Handler.do_POST] with its output written out. *)
Definition do_POST (rt : runtime) (key_var : option text) (path : text)
    (rfile : result bytes) : action (list sent) :=
  action_map transmit (Server.do_POST rt key_var path rfile).

(** The status sent first, the headers, and what was written. *)
Definition status_sent (out : list sent) : option Z :=
  match out with
  | SendResponse code :: _ => Some code
  | _ => None
  end.

Definition headers_sent (out : list sent) : list (text * text) :=
  flat_map (fun s => match s with SendHeader n v => [(n, v)] | _ => [] end) out.

Definition written (out : list sent) : list sent :=
  List.filter (fun s => match s with Write _ | WriteJson _ => true | _ => false end)
    out.

(** A response in the order HTTP needs: the status, then headers, then the
    end of the headers, then at most one write. *)
Definition well_formed (out : list sent) : Prop :=
  exists code hs rest,
    out = SendResponse code :: List.map (fun h => SendHeader h.1 h.2) hs
            ++ EndHeaders :: rest /\
    rest = written out /\ length rest <= 1.

(** All three CORS headers are among the headers sent. *)
Definition has_cors (out : list sent) : Prop :=
  forall h, In h send_cors_headers -> In h out.

End ServerWire.

(** ** Reading a value inside a payload *)

Module Probe.
Import PyStr PyVal Relay Invocation.

(** [v[k1][k2]...]. *)
Fixpoint at_path (v : json) (path : list subscript) : result json :=
  match path with
  | [] => Ok v
  | k :: rest => x ← getitem v k; at_path x rest
  end.

Definition inline_data_path : list subscript :=
  [Key (py "contents"); Idx 0; Key (py "parts"); Idx 0; Key (py "inline_data")].

Definition prompt_path : list subscript :=
  [Key (py "contents"); Idx 0; Key (py "parts"); Idx 1; Key (py "text")].

(** The constants in which the two files differ. *)
Definition model_of (i : invocation) : string :=
  match i with
  | AppCall _ _ => App.GEMINI_MODEL
  | ServerCall _ _ _ => Server.MODEL
  end.

Definition max_tokens_of (i : invocation) : Z :=
  match i with
  | AppCall _ _ => 4096
  | ServerCall _ _ _ => 2048
  end.

Definition timeout_of (i : invocation) : Z :=
  match i with
  | AppCall _ _ => 120
  | ServerCall _ _ _ => 60
  end.

(** No backtick in a text. *)
Definition tick_free (u : text) : bool :=
  forallb (fun c => negb (c =? tick)%N) u.

(** A text made of pieces separated by fences: [s0], then a fence before
    each of [segs]. *)
Definition fenced (s0 : text) (segs : list text) : text :=
  s0 ++ flat_map (fun s => fence ++ s) segs.

(** What stands behind a piece: nothing, or the fence of the next piece. *)
Definition at_fence (Y : text) : Prop := Y = [] \/ exists Z, Y = fence ++ Z.

(** A piece that begins with [json] without that tag. *)
Definition untag (s : text) : text :=
  if starts_with (py "json") s then drop 4 s else s.

End Probe.

(** ** More documents for worked runs *)

Module MoreSample.
Import PyStr PyVal Relay Invocation Sample.

Definition body_no_candidates : bytes := encode (py "{}").
Definition body_empty_candidates : bytes :=
  encode (py "{" ++ quoted "candidates" ++ py ": []}").
Definition body_null_text : bytes :=
  encode (py "{" ++ quoted "candidates" ++ py ": [{" ++ quoted "content"
            ++ py ": {" ++ quoted "parts" ++ py ": [{" ++ quoted "text"
            ++ py ": null}]}}]}").
Definition body_list : bytes := encode (py "[1]").
Definition body_image_only : bytes :=
  encode (py "{" ++ quoted "imageB64" ++ py ": " ++ quoted "QUJD" ++ py "}").
Definition body_null_mime : text :=
  py "{" ++ quoted "apiKey" ++ py ": " ++ quoted "REQ" ++ py ", "
    ++ quoted "imageB64" ++ py ": " ++ quoted "QUJD" ++ py ", "
    ++ quoted "mimeType" ++ py ": null}".
Definition fields_null_mime : list (text * json) :=
  fields_full ++ [(py "mimeType", JNull)].
Definition fields_image_only : list (text * json) :=
  [(py "imageB64", JStr (py "QUJD"))].
Definition text_generic_fence : text :=
  fence ++ [newline] ++ py "[" ++ doc_row ++ py "]" ++ [newline] ++ fence.

(** [json.loads] on [bytes] for the documents above, with the values CPython
    returns for them, and as in [Sample] otherwise. *)
Definition more_bytes_documents : list (bytes * json) :=
  [ (body_no_candidates, JObj []);
    (body_empty_candidates, JObj [(py "candidates", JArr [])]);
    (body_null_text, envelope JNull);
    (body_list, JArr [JInt 1]);
    (body_image_only, JObj [(py "imageB64", JStr (py "QUJD"))]);
    (encode body_null_mime, JObj fields_null_mime);
    (upstream_body text_generic_fence, envelope (JStr text_generic_fence)) ].

Definition loads_bytes (b : bytes) : result json :=
  match find_doc same_bytes more_bytes_documents b with
  | Some v => Ok v
  | None => Sample.loads_bytes b
  end.

Definition python : runtime :=
  {| json_loads := loads;
     json_loads_bytes := loads_bytes;
     format_value := format_simple;
     describe := describe_exn |}.

(** A transport that fails with an exception of its own. *)
Definition fails (e : exn) : Request -> fetched := fun _ => Failed e.

(** A transport that rejects every request with a status and a body that
    [decode()] refuses. *)
Definition rejects_undecodable (code : Z) (e : exn) : Request -> fetched :=
  fun _ => HTTPError code (Raise e).

(** [str()] of the [UnicodeDecodeError] for a body that is the one byte
    [0xff]. *)
Definition not_utf8 : exn :=
  OtherException (py
    "'utf-8' codec can't decode byte 0xff in position 0: invalid start byte").

End MoreSample.

(** ** The model on small inputs *)

Module Runs.
Import PyStr PyVal Relay Invocation Sample.

Example replace_runs_of_backticks :
  replace (py "```") [] (py "a```b``````c``d`````e") = py "abc``d``e".
Proof. reflexivity. Qed.

Example replace_does_not_overlap :
  replace (py "aa") (py "-") (py "aaaaa") = py "--a".
Proof. reflexivity. Qed.

Example replace_empty_pattern : replace [] (py "-") (py "abc") = py "-a-b-c-".
Proof. reflexivity. Qed.

Example strip_both_ends :
  strip ([newline; 160; 32]%N ++ py "a b" ++ [9; 8232]%N) = py "a b".
Proof. reflexivity. Qed.

Example normalize_fenced_rows :
  normalize text_fenced_rows = py "[" ++ doc_row ++ py "]".
Proof. reflexivity. Qed.

Example str_of_nat_120 : str_of_nat 120 = py "120".
Proof. reflexivity. Qed.

Example decode_error_second_line :
  decode_error_text (py "Expecting value") (py "[1," ++ [newline] ++ py "x]") 4
  = py "Expecting value: line 2 column 1 (char 4)".
Proof. reflexivity. Qed.

Example key_error_text rt :
  exn_str rt (KeyError (Key (py "candidates"))) = squote :: py "candidates" ++ [squote].
Proof. reflexivity. Qed.

Example empty_candidates rt :
  envelope_text (JObj [(py "candidates", JArr [])]) = Raise (IndexError false)
  /\ except_clauses rt (IndexError false)
     = error_reply 500
         (py "Failed to parse Gemini response: list index out of range").
Proof. split; reflexivity. Qed.

Example app_rejects_empty_object rt tr key_var :
  run tr (App.gemini_proxy rt key_var (Ok (JObj [])))
  = (Answer (error_reply 400 (py "Invalid JSON body")), []).
Proof. reflexivity. Qed.

Example app_fails_on_a_list rt tr key_var :
  run tr (App.gemini_proxy rt key_var (Ok (JArr [JInt 1])))
  = (Answer
       (error_reply 500 (describe rt (AttributeError (JArr [JInt 1]) (py "get")))),
     []).
Proof. by destruct key_var as [[|c k]|]. Qed.

Example undecodable_error_body rt code e :
  Server.after_urlopen rt (HTTPError code (Raise e))
  = Server._error 500 (exn_str rt e)
  /\ App.after_urlopen rt (HTTPError code (Raise e)) = Escapes e.
Proof. split; reflexivity. Qed.

Example server_off_route rt tr key_var rfile :
  run tr (Server.do_POST rt key_var (py "/other") rfile)
  = ({| status := 404; body := None |}, []).
Proof. reflexivity. Qed.

Example server_sends_request_key :
  List.map url
    (calls (replies (upstream_body text_five))
       (Server.do_POST python (Some (py "ENV")) (py "/api/gemini")
          (Ok (encode body_full))))
  = [py "https://generativelanguage.googleapis.com/v1beta/models/gemini-2.5-flash:generateContent?key=REQ"].
Proof. reflexivity. Qed.

End Runs.

(** ** String facts: [replace] and [strip] *)

Module PyStrFacts.
Import PyStr.

Lemma starts_with_app old r : starts_with old (old ++ r) = true.
Proof.
  induction old as [|o old IH]; simpl; [done|].
  by rewrite N.eqb_refl.
Qed.

Lemma starts_with_inv old s :
  starts_with old s = true -> exists r, s = old ++ r.
Proof.
  revert s. induction old as [|o old IH]; intros s H; simpl in *.
  - by exists s.
  - destruct s as [|c s]; [done|].
    apply andb_true_iff in H as [Hc Hs].
    apply N.eqb_eq in Hc as ->.
    destruct (IH _ Hs) as [r ->]. by exists r.
Qed.

Lemma contains_unfold old s :
  contains old s =
  starts_with old s || match s with [] => false | _ :: s' => contains old s' end.
Proof. by destruct s. Qed.

Lemma contains_occurs old s : contains old s = true <-> occurs old s.
Proof.
  split.
  - induction s as [|c s IH]; rewrite contains_unfold; intros H.
    + rewrite orb_false_r in H. apply starts_with_inv in H as [r ->].
      by exists [], r.
    + apply orb_true_iff in H as [H|H].
      * apply starts_with_inv in H as [r ->]. by exists [], r.
      * destruct (IH H) as (a & b & ->). by exists (c :: a), b.
  - intros (a & b & ->). induction a as [|c a IH]; simpl.
    + rewrite contains_unfold, starts_with_app. done.
    + rewrite IH. apply orb_true_r.
Qed.

Lemma contains_absent old s : contains old s = false <-> ~ occurs old s.
Proof.
  rewrite <- contains_occurs. destruct (contains old s); split; done.
Qed.

(** An occurrence of a longer pattern holds one of each of its prefixes. *)
Lemma contains_longer old more s :
  contains old s = false -> contains (old ++ more) s = false.
Proof.
  rewrite !contains_absent. intros H (a & b & ->). apply H.
  exists a, (more ++ b). by rewrite <- !app_assoc.
Qed.

Lemma contains_infix old a s b :
  contains old (a ++ s ++ b) = false -> contains old s = false.
Proof.
  rewrite !contains_absent. intros H (x & y & ->). apply H.
  exists (a ++ x), (y ++ b). by rewrite <- !app_assoc.
Qed.

Lemma replace_from_drop old new k s :
  replace_from old new k s = replace_from old new 0 (drop k s).
Proof.
  revert k. induction s as [|c s IH]; intros [|k]; simpl; done.
Qed.

Lemma replace_from_absent old new s :
  contains old s = false -> replace_from old new 0 s = s.
Proof.
  induction s as [|c s IH]; [done|].
  rewrite contains_unfold. intros [H1 H2]%orb_false_iff.
  simpl in *. rewrite H1. by rewrite IH.
Qed.

Lemma replace_absent old new s :
  old <> [] -> contains old s = false -> replace old new s = s.
Proof.
  intros Hold H. destruct old; [done|]. by apply replace_from_absent.
Qed.

Lemma replace_prefix old new r :
  old <> [] -> replace old new (old ++ r) = new ++ replace old new r.
Proof.
  destruct old as [|o old]; [done|]. intros _. unfold replace.
  change ((o :: old) ++ r) with (o :: (old ++ r)).
  cbn [replace_from].
  change (o :: (old ++ r)) with ((o :: old) ++ r).
  rewrite starts_with_app. f_equal.
  rewrite replace_from_drop. simpl. rewrite Nat.sub_0_r.
  by rewrite drop_app_length.
Qed.

Lemma replace_from_sublist old k s : replace_from old [] k s `sublist_of` s.
Proof.
  revert k. induction s as [|c s IH]; intros k; [done|].
  destruct k as [|k]; cbn [replace_from].
  - destruct (starts_with old (c :: s)).
    + apply sublist_cons, IH.
    + apply sublist_skip, IH.
  - apply sublist_cons, IH.
Qed.

Lemma replace_sublist old s : old <> [] -> replace old [] s `sublist_of` s.
Proof. destruct old; [done|]. intros _. apply replace_from_sublist. Qed.

Lemma lstrip_split s : exists ws, s = ws ++ lstrip s.
Proof.
  induction s as [|c s [ws IH]]; [by exists []|]. simpl.
  destruct (isspace c).
  - exists (c :: ws). simpl. by f_equal.
  - by exists [].
Qed.

Lemma rstrip_split s : exists ws, s = rstrip s ++ ws.
Proof.
  unfold rstrip. destruct (lstrip_split (rev s)) as [ws H].
  exists (rev ws). rewrite <- rev_app_distr, <- H. by rewrite rev_involutive.
Qed.

Lemma strip_split s : exists a b, s = a ++ strip s ++ b.
Proof.
  unfold strip. destruct (lstrip_split s) as [a Ha].
  destruct (rstrip_split (lstrip s)) as [b Hb].
  exists a, b. by rewrite <- Hb.
Qed.

Lemma strip_sublist s : strip s `sublist_of` s.
Proof.
  destruct (strip_split s) as (a & b & H). rewrite H at 2.
  apply sublist_inserts_l, sublist_inserts_r. done.
Qed.

Lemma lstrip_clean s : clean_head s = true -> lstrip s = s.
Proof.
  destruct s as [|c s]; [done|]. simpl. by intros ->%negb_true_iff.
Qed.

Lemma clean_head_lstrip s : clean_head (lstrip s) = true.
Proof.
  induction s as [|c s IH]; [done|]. simpl.
  destruct (isspace c) eqn:E; [done|]. simpl. by rewrite E.
Qed.

Lemma lstrip_app_nonspace l c r :
  isspace c = false -> lstrip (l ++ c :: r) = lstrip l ++ c :: r.
Proof.
  intros Hc. induction l as [|x l IH]; simpl.
  - by rewrite Hc.
  - by destruct (isspace x).
Qed.

Lemma rstrip_cons_nonspace c s :
  isspace c = false -> rstrip (c :: s) = c :: rstrip s.
Proof.
  intros Hc. unfold rstrip. simpl.
  rewrite lstrip_app_nonspace by done.
  rewrite rev_app_distr. done.
Qed.

Lemma clean_head_rstrip s : clean_head s = true -> clean_head (rstrip s) = true.
Proof.
  destruct s as [|c s]; [done|]. simpl. intros Hc%negb_true_iff.
  rewrite rstrip_cons_nonspace by done. simpl. by rewrite Hc.
Qed.

Lemma lstrip_idem s : lstrip (lstrip s) = lstrip s.
Proof. apply lstrip_clean, clean_head_lstrip. Qed.

Lemma rstrip_idem s : rstrip (rstrip s) = rstrip s.
Proof. unfold rstrip. by rewrite rev_involutive, lstrip_idem. Qed.

(** [strip] leaves a stripped text alone. *)
Lemma strip_idem s : strip (strip s) = strip s.
Proof.
  unfold strip.
  rewrite (lstrip_clean (rstrip (lstrip s))).
  - apply rstrip_idem.
  - apply clean_head_rstrip, clean_head_lstrip.
Qed.

Lemma not_suffix (a b : text) :
  bool_decide (a `suffix_of` b) = false -> ~ a `suffix_of` b.
Proof. apply bool_decide_eq_false_1. Qed.

Lemma starts_ticks n s : starts_with (replicate n tick) s = true <-> n <= lead s.
Proof.
  revert s. induction n as [|n IH]; intros s; cbn [replicate starts_with].
  - split; [lia|done].
  - destruct s as [|c s]; cbn [lead]; [split; [done|lia]|].
    rewrite (N.eqb_sym tick c).
    destruct (c =? tick)%N; cbn [andb]; [rewrite IH|]; split; (done || lia).
Qed.

End PyStrFacts.

(** ** Facts on the normalisation of the model's text *)

Module NormalizeFacts.
Import PyStr PyVal Relay PyStrFacts.

Lemma fence_ticks : fence = replicate 3 tick.
Proof. reflexivity. Qed.

Lemma fence_json_split : fence_json = fence ++ py "json".
Proof. reflexivity. Qed.

(** After [replace("```", "")] no run of backticks has three of them, and
    the result begins with no more backticks than the text did. *)
Lemma replace_fence_invariant s k :
  contains fence (replace_from fence [] k s) = false /\
  lead (replace_from fence [] k s) <= lead (drop k s).
Proof.
  revert k. induction s as [|c s IH]; intros k.
  - by destruct k.
  - destruct k as [|k]; cbn [replace_from skipn]; [|apply IH].
    destruct (starts_with fence (c :: s)) eqn:E.
    + destruct (IH 2) as [H1 H2]. split; [done|].
      rewrite fence_ticks in E. apply starts_ticks in E.
      change ([] ++ replace_from fence [] (length fence - 1) s)
        with (replace_from fence [] 2 s).
      etrans; [exact H2|].
      cbn [lead] in *. destruct (c =? tick)%N; [|lia].
      destruct s as [|d s]; cbn [lead skipn] in *; [lia|].
      destruct (d =? tick)%N; [|lia].
      destruct s as [|d' s]; cbn [lead skipn] in *; [lia|].
      rewrite drop_0. destruct (d' =? tick)%N; lia.
    + destruct (IH 0) as [H1 H2]. rewrite drop_0 in H2.
      assert (lead (c :: replace_from fence [] 0 s) <= lead (c :: s)) as Hl.
      { cbn [lead]. destruct (c =? tick)%N; lia. }
      split; [|done].
      rewrite contains_unfold, H1, orb_false_r.
      destruct (starts_with fence (c :: replace_from fence [] 0 s)) eqn:E'; [|done].
      apply (starts_ticks 3) in E'.
      assert (starts_with fence (c :: s) = true) as E''
        by (apply (starts_ticks 3); lia).
      congruence.
Qed.

Lemma replace_fence_free s : contains fence (replace fence [] s) = false.
Proof. apply (replace_fence_invariant s 0). Qed.

Lemma contains_strip old s : contains old s = false -> contains old (strip s) = false.
Proof.
  destruct (strip_split s) as (a & b & H). rewrite H at 1.
  apply contains_infix.
Qed.

Lemma normalize_fence_free t : contains fence (normalize t) = false.
Proof. apply contains_strip, replace_fence_free. Qed.

Lemma normalize_absent t : contains fence t = false -> normalize t = strip t.
Proof.
  intros H. unfold normalize.
  rewrite (replace_absent fence_json); [|done|].
  - by rewrite replace_absent.
  - rewrite fence_json_split. by apply contains_longer.
Qed.

Lemma normalize_sublist t : normalize t `sublist_of` t.
Proof.
  unfold normalize. etrans; [apply strip_sublist|].
  etrans; apply replace_sublist; done.
Qed.

Lemma normalize_idem t : normalize (normalize t) = normalize t.
Proof.
  rewrite normalize_absent by apply normalize_fence_free.
  apply strip_idem.
Qed.

(** A closing fence after a text without fences is removed whole, also when
    the text itself ends in backticks. *)
Lemma replace_fence_end u :
  contains fence u = false -> replace fence [] (u ++ fence) = u.
Proof.
  unfold replace. change fence with [tick; tick; tick].
  induction u as [|c u IH]; [done|].
  rewrite contains_unfold. intros [H1 H2]%orb_false_iff.
  specialize (IH H2).
  change ((c :: u) ++ [tick; tick; tick]) with (c :: (u ++ [tick; tick; tick])).
  cbn [replace_from].
  destruct (starts_with [tick; tick; tick] (c :: u ++ [tick; tick; tick])) eqn:E;
    [|by rewrite IH].
  cbn [starts_with] in H1, E.
  destruct (tick =? c)%N eqn:Ec; [|done]. apply N.eqb_eq in Ec as <-.
  cbn [andb] in H1, E.
  destruct u as [|d u]; [reflexivity|].
  cbn [app starts_with] in H1, E.
  destruct (tick =? d)%N eqn:Ed; [|done]. apply N.eqb_eq in Ed as <-.
  cbn [andb] in H1, E.
  destruct u as [|d u]; [reflexivity|].
  cbn [app starts_with] in H1, E. congruence.
Qed.

(** Behind a fence-free text and its closing fence no [```json] starts. *)
Lemma fence_json_absent u :
  contains fence u = false -> contains fence_json (u ++ fence) = false.
Proof.
  rewrite !contains_absent. intros H (a & b & E). apply H.
  rewrite fence_json_split in E.
  assert (length u + 3 = length a + (3 + (4 + length b))) as Hlen.
  { apply (f_equal length) in E. rewrite !length_app in E. exact E. }
  exists a, (drop (length a + 3) u).
  rewrite app_assoc.
  rewrite <- (take_drop (length a + 3) u) at 1. f_equal.
  rewrite <- (take_app_le u fence) by lia.
  rewrite E. rewrite <- !app_assoc. rewrite (app_assoc a fence).
  rewrite take_app_length'; [done|]. rewrite length_app. done.
Qed.

Lemma normalize_fenced u :
  contains fence u = false -> normalize (fence_json ++ u ++ fence) = strip u.
Proof.
  intros H. unfold normalize.
  rewrite replace_prefix by done. rewrite app_nil_l.
  rewrite (replace_absent fence_json); [|done|by apply fence_json_absent].
  by rewrite replace_fence_end.
Qed.

End NormalizeFacts.

(** ** Facts on the two handlers *)

Module RelayFacts.
Import PyStr PyVal Relay Invocation.

(** Reduce the binds and returns of [result]. *)
Ltac step_result :=
  cbn [mbind result_bind] in *; unfold mret, result_ret in *.

(** Split on every test a computation depends on. *)
Ltac split_cases := repeat (case_match; step_result); simplify_eq.

(** A [dict] in which a key has a truthy value is not empty. *)
Lemma truthy_field fields key :
  truthy (dict_get fields key (JStr [])) = true -> truthy (JObj fields) = true.
Proof. by destruct fields. Qed.

(** Every run is an answer at once, or one call followed by the answer
    computed from what the transport gave. *)
Lemma handle_shape rt i :
  (exists r, handle rt i = Done r) \/
  (exists req, handle rt i = UrlOpen req (fun out => Done (after_call rt i out))).
Proof.
  destruct i as [key_var get_json|key_var path rfile]; simpl.
  - unfold App.gemini_proxy.
    destruct (App.before_urlopen rt key_var get_json) as [[r|req]|e]; eauto.
  - unfold Server.do_POST. destruct (decide _) as [Hpath|Hpath]; [|simpl; eauto].
    destruct (Server.before_urlopen rt rfile) as [[r|req]|e]; simpl; eauto.
Qed.

(** With a credential and an image the request is built and sent. *)
Lemma handle_proceeds rt i fields :
  on_route i ->
  payload_of rt i = Ok (JObj fields) ->
  truthy (credential i fields) = true ->
  truthy (image_of fields) = true ->
  handle rt i =
    UrlOpen (request_with rt i (credential i fields) fields)
      (fun out => Done (after_call rt i out)).
Proof.
  intros Hroute Hpay Hkey Himg.
  destruct i as [key_var get_json|key_var path rfile]; simpl in *.
  - subst get_json. unfold App.gemini_proxy, App.before_urlopen.
    cbn [mbind result_bind mret result_ret get].
    rewrite (truthy_field _ _ Himg). cbn [negb].
    unfold py_or. fold (supplied_key fields) (image_of fields) (mime_of fields).
    destruct (truthy (environ_get key_var)) eqn:E;
      cbn [mbind result_bind mret result_ret]; rewrite Hkey, Himg; done.
  - destruct rfile as [raw|e]; [|done]. simpl in Hpay.
    unfold Server.do_POST. rewrite decide_True by done.
    unfold Server.before_urlopen. cbn [mbind result_bind mret result_ret].
    rewrite Hpay. cbn [mbind result_bind mret result_ret get].
    fold (supplied_key fields) (image_of fields) (mime_of fields).
    rewrite Hkey, Himg. done.
Qed.

(** Without a credential or without an image the relay answers 400 at
    once. *)
Lemma handle_rejects rt i fields :
  on_route i ->
  payload_of rt i = Ok (JObj fields) ->
  truthy (credential i fields) = false \/ truthy (image_of fields) = false ->
  exists message, handle rt i = Done (Answer (error_reply 400 message)).
Proof.
  intros Hroute Hpay Hmiss.
  destruct i as [key_var get_json|key_var path rfile]; simpl in *.
  - subst get_json. unfold App.gemini_proxy, App.before_urlopen.
    cbn [mbind result_bind mret result_ret get].
    destruct (truthy (JObj fields)); cbn [negb]; [|eauto].
    unfold py_or. fold (supplied_key fields) (image_of fields) (mime_of fields).
    destruct (truthy (environ_get key_var)) eqn:E;
      cbn [mbind result_bind mret result_ret];
      [destruct (truthy (environ_get key_var))
      |destruct (truthy (supplied_key fields))]; cbn [negb]; eauto;
      destruct (truthy (image_of fields)); cbn [negb]; eauto;
      destruct Hmiss; done.
  - destruct rfile as [raw|e]; [|done]. simpl in Hpay.
    unfold Server.do_POST. rewrite decide_True by done.
    unfold Server.before_urlopen. cbn [mbind result_bind mret result_ret].
    rewrite Hpay. cbn [mbind result_bind mret result_ret get].
    fold (supplied_key fields) (image_of fields) (mime_of fields).
    destruct (truthy (supplied_key fields)); cbn [negb]; [|eauto].
    destruct (truthy (image_of fields)); cbn [negb]; [|eauto].
    destruct Hmiss; done.
Qed.

Lemma dict_get_default fields key d d' :
  dict_get fields key d =
  if has_key fields key then dict_get fields key d' else d.
Proof.
  induction fields as [|[k v] fields IH]; [done|]. simpl.
  destruct (decide (k = key)) as [->|Hne].
  - by rewrite bool_decide_eq_true_2.
  - by rewrite bool_decide_eq_false_2.
Qed.

Lemma dict_get_app_other fields k v key d :
  k <> key -> dict_get (fields ++ [(k, v)]) key d = dict_get fields key d.
Proof.
  intros Hne. induction fields as [|[k' v'] fields IH]; simpl.
  - by rewrite decide_False.
  - by rewrite IH.
Qed.

Lemma dict_get_app_absent fields k v d :
  has_key fields k = false -> dict_get (fields ++ [(k, v)]) k d = v.
Proof.
  induction fields as [|[k' v'] fields IH]; simpl.
  - intros _. by rewrite decide_True.
  - intros [Hk Hrest]%orb_false_iff. apply bool_decide_eq_false_1 in Hk.
    simpl in Hk. rewrite decide_False by done. by apply IH.
Qed.

(** A request that leaves [mimeType] out is read as the request that spells
    the default out. *)
Lemma explicit_mime_inputs fields :
  has_key fields (py "mimeType") = false ->
  supplied_key (Spec.explicit_mime fields) = supplied_key fields /\
  image_of (Spec.explicit_mime fields) = image_of fields /\
  mime_of (Spec.explicit_mime fields) = mime_of fields.
Proof.
  intros Hmime. unfold supplied_key, image_of, mime_of, Spec.explicit_mime.
  rewrite !dict_get_app_other by done.
  rewrite dict_get_app_absent by done.
  rewrite (dict_get_default fields (py "mimeType") _ JNull), Hmime. done.
Qed.

Lemma as_rows_list rows : exists items, as_rows rows = JArr items.
Proof. destruct rows; simpl; eauto. Qed.

Lemma except_clauses_error rt e :
  exists message, except_clauses rt e = error_reply 500 message.
Proof. destruct e; simpl; eauto. Qed.

(** The outer [except] of [server.py] and the last clause of [app.py]
    answer alike. *)
Lemma server_on_raise rt e :
  match
    match e with
    | JSONDecodeError _ _ _ | KeyError _ | IndexError _ =>
        Ok (Server._error 500
              (py "Failed to parse Gemini response: " ++ exn_str rt e))
    | _ => Raise e
    end
  with
  | Ok r => r
  | Raise e' => Server._error 500 (exn_str rt e')
  end = except_clauses rt e.
Proof. by destruct e. Qed.

(** What follows the call, outcome by outcome, in either file. *)
Lemma after_call_fetched rt i raw :
  after_call rt i (Fetched raw) =
  Answer (match on_response rt raw with
          | Ok r => r
          | Raise e => except_clauses rt e
          end).
Proof.
  destruct i; simpl; unfold App.after_urlopen, Server.after_urlopen,
    Server.inner_try; destruct (on_response rt raw) as [r|e]; try done.
  by rewrite server_on_raise.
Qed.

Lemma after_call_rejected rt i code err_body :
  after_call rt i (HTTPError code (Ok err_body)) =
  Answer (on_http_error rt code err_body).
Proof. by destruct i. Qed.

Lemma after_call_unreachable rt i reason :
  after_call rt i (URLError reason) = Answer (on_url_error reason).
Proof. by destruct i. Qed.

Lemma after_call_failed rt i e :
  after_call rt i (Failed e) = Answer (except_clauses rt e).
Proof.
  destruct i; simpl; [done|].
  unfold Server.after_urlopen, Server.inner_try. by rewrite server_on_raise.
Qed.

(** The one place where the files part: [e.read().decode()] raising in the
    [HTTPError] clause. *)
Lemma after_call_undecodable rt i code e :
  after_call rt i (HTTPError code (Raise e)) =
  match i with
  | AppCall _ _ => Escapes e
  | ServerCall _ _ _ => Answer (error_reply 500 (exn_str rt e))
  end.
Proof. by destruct i. Qed.

Lemma after_call_agrees rt i i' out :
  (forall code e, out <> HTTPError code (Raise e)) ->
  after_call rt i out = after_call rt i' out.
Proof.
  intros Hout. destruct out as [raw|code [err_body|e]|reason|e].
  - by rewrite !after_call_fetched.
  - by rewrite !after_call_rejected.
  - by destruct (Hout code e).
  - by rewrite !after_call_unreachable.
  - by rewrite !after_call_failed.
Qed.

(** The answers that can follow the call: rows with status 200, the
    upstream's own status on an [HTTPError], 502 or 500, or the exception
    that leaves [app.py]. *)
Lemma after_call_cases rt i out :
  (exists items, after_call rt i out = reply 200 "rows" (JArr items)) \/
  (exists code err_body message,
     out = HTTPError code err_body /\
     after_call rt i out = error_reply code message) \/
  (exists message, after_call rt i out = error_reply 502 message) \/
  (exists message, after_call rt i out = error_reply 500 message) \/
  (exists e, after_call rt i out = Escapes e).
Proof.
  destruct out as [raw|code [err_body|e]|reason|e].
  - rewrite after_call_fetched. unfold on_response.
    destruct (loaded_rows rt raw) as [rows|e]; step_result.
    + left. destruct (as_rows_list rows) as [items ->]. eauto.
    + do 3 right. left. destruct (except_clauses_error rt e) as [m ->]. eauto.
  - rewrite after_call_rejected. right; left. by eexists _, _, _.
  - rewrite after_call_undecodable. destruct i; [do 4 right|do 3 right; left];
      eauto.
  - rewrite after_call_unreachable. right; right; left. by eexists.
  - rewrite after_call_failed. do 3 right. left.
    destruct (except_clauses_error rt e) as [m ->]. eauto.
Qed.

Lemma app_early_return rt key_var get_json r :
  App.before_urlopen rt key_var get_json = Ok (Return r) ->
  exists message, r = error_reply 400 message.
Proof.
  unfold App.before_urlopen, py_or, get.
  destruct get_json as [payload|e]; [|done].
  cbn [mbind result_bind mret result_ret].
  intros H. split_cases; eauto.
Qed.

Lemma server_early_return rt rfile r :
  Server.before_urlopen rt rfile = Ok (Return r) ->
  exists message, r = error_reply 400 message.
Proof.
  unfold Server.before_urlopen, get, Server._error.
  destruct rfile as [raw|e]; [|done].
  cbn [mbind result_bind mret result_ret].
  destruct (json_loads_bytes rt raw) as [payload|e]; [|done].
  cbn [mbind result_bind mret result_ret].
  intros H. split_cases; eauto.
Qed.

(** One request reached [urlopen]: the answer is what follows it. *)
Lemma answer_of_call rt tr i req :
  calls tr (handle rt i) = [req] ->
  answer tr (handle rt i) = after_call rt i (tr req).
Proof.
  destruct (handle_shape rt i) as [[r H]|[req' H]]; rewrite H;
    unfold calls, answer; simpl; [done|].
  by intros [= ->].
Qed.

Lemma calls_at_most_one rt tr i : length (calls tr (handle rt i)) <= 1.
Proof.
  destruct (handle_shape rt i) as [[r H]|[req' H]]; rewrite H;
    unfold calls; simpl; lia.
Qed.

(** An answer given without a call: a 400, a 500, or the bare 404 of
    [server.py] off the route. *)
Lemma answer_without_call rt tr i :
  calls tr (handle rt i) = [] ->
  (exists code message,
     (code = 400 \/ code = 500)%Z /\
     answer tr (handle rt i) = error_reply code message) \/
  answer tr (handle rt i) = Answer {| status := 404; body := None |}.
Proof.
  destruct i as [key_var get_json|key_var path rfile]; simpl.
  - unfold App.gemini_proxy.
    destruct (App.before_urlopen rt key_var get_json) as [[r|req]|e] eqn:E.
    + apply app_early_return in E as [m ->]. intros _. left.
      exists 400%Z, m. auto.
    + done.
    + intros _. destruct (except_clauses_error rt e) as [m Hm].
      left. exists 500%Z, m. unfold answer. simpl. rewrite Hm. auto.
  - unfold Server.do_POST.
    destruct (decide _) as [Hpath|Hpath]; [|by right].
    destruct (Server.before_urlopen rt rfile) as [[r|req]|e] eqn:E.
    + apply server_early_return in E as [m ->]. intros _. left.
      exists 400%Z, m. auto.
    + done.
    + intros _. left. exists 500%Z, (exn_str rt e). auto.
Qed.

(** Every answer of a run, by status. *)
Lemma answer_cases rt tr i :
  (exists items, answer tr (handle rt i) = reply 200 "rows" (JArr items)) \/
  (exists req code err_body message,
     tr req = HTTPError code err_body /\
     answer tr (handle rt i) = error_reply code message) \/
  (exists code message,
     (code = 400 \/ code = 500 \/ code = 502)%Z /\
     answer tr (handle rt i) = error_reply code message) \/
  answer tr (handle rt i) = Answer {| status := 404; body := None |} \/
  (exists e, answer tr (handle rt i) = Escapes e).
Proof.
  destruct (handle_shape rt i) as [[r H]|[req H]].
  - assert (calls tr (handle rt i) = []) as Hnone by (by rewrite H).
    destruct (answer_without_call rt tr i Hnone) as [(code & m & Hc & Ha)|Ha].
    + right; right; left. exists code, m. split; [lia|done].
    + by do 3 right; left.
  - assert (answer tr (handle rt i) = after_call rt i (tr req)) as ->
      by (by rewrite H).
    destruct (after_call_cases rt i (tr req))
      as [Hc|[(code & b & m & Hout & Hc)|[[m Hc]|[[m Hc]|[e Hc]]]]].
    + by left.
    + right; left. by exists req, code, b, m.
    + right; right; left. exists 502%Z, m. auto.
    + right; right; left. exists 500%Z, m. auto.
    + do 4 right. by exists e.
Qed.

(** The subscriptions of the envelope raise nothing but [KeyError],
    [IndexError] and [TypeError]. *)
Lemma getitem_raises v k e : getitem v k = Raise e -> Spec.subscript_error e.
Proof.
  unfold getitem. intros H. repeat case_match; simplify_eq; done.
Qed.

Lemma envelope_text_raises result e :
  envelope_text result = Raise e -> Spec.subscript_error e.
Proof.
  unfold envelope_text. intros H.
  repeat match type of H with
  | (getitem ?v ?k ≫= _) = _ =>
      let E := fresh "E" in
      destruct (getitem v k) eqn:E; cbn [mbind result_bind] in H;
        [|simplify_eq; by eapply getitem_raises]
  end.
  by eapply getitem_raises.
Qed.

Lemma gemini_url_key rt model api_key :
  (py "?key=" ++ py_str rt api_key) `suffix_of` gemini_url rt model api_key.
Proof.
  exists (py "https://generativelanguage.googleapis.com/v1beta/models/"
            ++ py model ++ py ":generateContent").
  unfold gemini_url.
  change (py ":generateContent?key=") with (py ":generateContent" ++ py "?key=").
  by rewrite <- !app_assoc.
Qed.

Lemma clean_of_str t : clean_of (JStr t) = Ok (normalize t).
Proof. done. Qed.

End RelayFacts.

(** ** Facts on texts made of pieces and fences *)

Module FenceFacts.
Import PyStr PyVal Relay Probe PyStrFacts NormalizeFacts.

Lemma tick_free_no_fence u : tick_free u = true -> contains fence u = false.
Proof.
  induction u as [|c u IH]; [done|].
  intros [Hc Hu]%andb_true_iff. rewrite contains_unfold, (IH Hu), orb_false_r.
  change fence with [tick; tick; tick]. cbn [starts_with].
  apply negb_true_iff in Hc. by rewrite (N.eqb_sym tick c), Hc.
Qed.

(** A pattern found at the start of [u ++ w] lies in [u], or runs into [w]
    and holds the first character of [w]. *)
Lemma starts_with_app_inv p u w :
  starts_with p (u ++ w) = true ->
  starts_with p u = true \/ exists c w', w = c :: w' /\ In c p.
Proof.
  revert u. induction p as [|o p IH]; intros u H; [by left|].
  destruct u as [|x u]; simpl in H.
  - destruct w as [|c w']; [done|].
    apply andb_true_iff in H as [Hc _]. apply N.eqb_eq in Hc as ->.
    right. exists c, w'. split; [done|by left].
  - apply andb_true_iff in H as [Hx H].
    destruct (IH u H) as [Hu|(c & w' & -> & Hin)].
    + left. simpl. by rewrite Hx, Hu.
    + right. exists c, w'. split; [done|by right].
Qed.

Lemma tick_free_head p u :
  tick_free u = true -> starts_with p [tick; tick] = false ->
  starts_with (tick :: p) (u ++ fence) = false.
Proof.
  intros Hu Hp. destruct u as [|c u].
  - change ([] ++ fence) with [tick; tick; tick]. cbn [starts_with].
    by rewrite N.eqb_refl, Hp.
  - apply andb_true_iff in Hu as [Hc _]. apply negb_true_iff in Hc.
    cbn [app starts_with]. by rewrite (N.eqb_sym tick c), Hc.
Qed.

Lemma tick_free_app a b : tick_free (a ++ b) = tick_free a && tick_free b.
Proof. apply forallb_app. Qed.

Lemma tick_free_drop n a : tick_free a = true -> tick_free (drop n a) = true.
Proof.
  intros Ha. rewrite <- (take_drop n a) in Ha. rewrite tick_free_app in Ha.
  by apply andb_true_iff in Ha as [_ Ha].
Qed.

(** No occurrence of a pattern that begins with a backtick starts inside a
    text without backticks. *)
Lemma replace_skip_free old new a X :
  starts_with [tick] old = true -> tick_free a = true ->
  replace old new (a ++ X) = a ++ replace old new X.
Proof.
  intros Hold Ha. destruct old as [|o old]; [done|].
  cbn [starts_with] in Hold. apply andb_true_iff in Hold as [Ho _].
  apply N.eqb_eq in Ho as <-. unfold replace.
  induction a as [|c a IH]; [done|].
  cbn [tick_free forallb] in Ha. apply andb_true_iff in Ha as [Hc Ha].
  apply negb_true_iff in Hc.
  change ((c :: a) ++ X) with (c :: (a ++ X)). cbn [replace_from starts_with].
  rewrite (N.eqb_sym tick c), Hc. cbn [andb]. by rewrite (IH Ha).
Qed.

Lemma at_fence_pieces (segs : list text) :
  at_fence (flat_map (fun s => fence ++ s) segs).
Proof.
  destruct segs as [|s rest]; [by left|]. right.
  exists (s ++ flat_map (fun s => fence ++ s) rest). cbn [flat_map].
  by rewrite <- app_assoc.
Qed.

Lemma piece_head q s Y :
  (forall Z, starts_with q (tick :: tick :: Z) = false) ->
  tick_free s = true -> at_fence Y ->
  starts_with (tick :: q) (s ++ Y) = false.
Proof.
  intros Hq Hs HY. destruct s as [|c s].
  - destruct HY as [->|[Z ->]]; [done|].
    change ([] ++ fence ++ Z) with (tick :: tick :: tick :: Z).
    cbn [starts_with]. by rewrite N.eqb_refl, Hq.
  - cbn [tick_free forallb] in Hs. apply andb_true_iff in Hs as [Hc _].
    apply negb_true_iff in Hc.
    cbn [app starts_with]. by rewrite (N.eqb_sym tick c), Hc.
Qed.

Lemma piece_not_json s Y :
  starts_with (py "json") s = false -> at_fence Y ->
  starts_with (py "json") (s ++ Y) = false.
Proof.
  intros Hs HY. destruct (starts_with (py "json") (s ++ Y)) eqn:E; [|done].
  apply starts_with_app_inv in E as [E|(c & w' & Hw & Hin)]; [congruence|].
  destruct HY as [->|[Z ->]]; [done|].
  injection Hw as <- _. exfalso. revert Hin. by vm_compute; intuition.
Qed.

Lemma starts_with_tick p s :
  starts_with (tick :: p) (tick :: s) = starts_with p s.
Proof. cbn [starts_with]. by rewrite N.eqb_refl. Qed.

Lemma replace_from_miss old new c s :
  starts_with old (c :: s) = false ->
  replace_from old new 0 (c :: s) = c :: replace_from old new 0 s.
Proof. cbn [replace_from]. by intros ->. Qed.

(** A fence that opens no [```json] stays where it is in the first pass. *)
Lemma untagged_fence_stays Y :
  starts_with (py "json") Y = false ->
  starts_with (tick :: py "json") Y = false ->
  starts_with (tick :: tick :: py "json") Y = false ->
  replace fence_json [] (fence ++ Y) = fence ++ replace fence_json [] Y.
Proof.
  intros H0 H1 H2. unfold replace.
  change fence_json with (tick :: tick :: tick :: py "json").
  change (fence ++ Y) with (tick :: tick :: tick :: Y).
  rewrite replace_from_miss by (by rewrite !starts_with_tick).
  rewrite replace_from_miss by (by rewrite !starts_with_tick).
  rewrite replace_from_miss by (by rewrite !starts_with_tick).
  done.
Qed.

(** The first pass over pieces and fences: a fence goes with the tag [json]
    behind it, and stays otherwise. *)
Lemma first_pass_pieces (segs : list text) :
  forallb tick_free segs = true ->
  replace fence_json [] (flat_map (fun s => fence ++ s) segs) =
  flat_map (fun s => if starts_with (py "json") s then drop 4 s else fence ++ s)
    segs.
Proof.
  induction segs as [|s rest IH]; [done|].
  cbn [forallb]. intros [Hs Hrest]%andb_true_iff. specialize (IH Hrest).
  cbn [flat_map]. rewrite <- app_assoc.
  pose proof (at_fence_pieces rest) as Hat.
  destruct (starts_with (py "json") s) eqn:E.
  - apply starts_with_inv in E as [s' ->].
    rewrite tick_free_app in Hs. apply andb_true_iff in Hs as [_ Hs'].
    change (drop 4 (py "json" ++ s')) with s'.
    change (fence ++ (py "json" ++ s') ++ flat_map (fun s => fence ++ s) rest)
      with (fence_json ++ (s' ++ flat_map (fun s => fence ++ s) rest)).
    rewrite replace_prefix by done. rewrite app_nil_l.
    rewrite replace_skip_free by done. by rewrite IH.
  - rewrite untagged_fence_stays.
    + rewrite replace_skip_free by done. by rewrite IH, <- app_assoc.
    + by apply piece_not_json.
    + by apply piece_head.
    + by apply piece_head.
Qed.

(** The second pass removes the fences that stayed. *)
Lemma second_pass_pieces (a : text) (segs : list text) :
  tick_free a = true -> forallb tick_free segs = true ->
  replace fence []
    (a ++ flat_map
            (fun s => if starts_with (py "json") s then drop 4 s else fence ++ s)
            segs) =
  a ++ flat_map untag segs.
Proof.
  revert a. induction segs as [|s rest IH]; intros a Ha.
  - intros _. cbn [flat_map]. rewrite !app_nil_r.
    by apply replace_absent, tick_free_no_fence.
  - cbn [forallb]. intros [Hs Hrest]%andb_true_iff.
    cbn [flat_map]. unfold untag at 1.
    destruct (starts_with (py "json") s) eqn:E.
    + rewrite !app_assoc. apply IH; [|done].
      rewrite tick_free_app, Ha. by apply tick_free_drop.
    + rewrite replace_skip_free by done. rewrite <- app_assoc.
      rewrite replace_prefix by done. rewrite app_nil_l.
      by rewrite (IH s Hs Hrest).
Qed.

(** Pieces without backticks, separated by fences: the fences go, and so
    does a [json] right behind a fence; the rest is joined and trimmed. *)
Lemma normalize_pieces (s0 : text) (segs : list text) :
  tick_free s0 = true -> forallb tick_free segs = true ->
  normalize (fenced s0 segs) = strip (s0 ++ flat_map untag segs).
Proof.
  intros Hs0 Hsegs. unfold normalize, fenced.
  rewrite replace_skip_free by done.
  rewrite first_pass_pieces by done.
  by rewrite second_pass_pieces.
Qed.

End FenceFacts.

(** ** The properties of the relay *)

Import PyStr PyVal Relay Invocation Spec Probe Sample.
Import PyStrFacts NormalizeFacts RelayFacts FenceFacts.

(** *** C1: which credential reaches the upstream URL *)

(** C1, as stated, fails for [server.py]: with [GEMINI_API_KEY] set to
    [ENV] and a request that supplies [REQ], the URL ends in [?key=REQ]. *)
Lemma c1_server_ignores_configured_key :
  ~ (forall rt tr i k,
       on_route i -> key_var_of i = Some k -> k <> [] ->
       length (calls tr (handle rt i)) = 1 ->
       sent_with rt tr i (JStr k)).
Proof.
  intros H.
  destruct (H python (replies (upstream_body text_five))
              (ServerCall (Some (py "ENV")) (py "/api/gemini")
                 (Ok (encode body_full)))
              (py "ENV")) as (req & Hcalls & Hurl); try done.
  vm_compute in Hcalls. injection Hcalls as <-.
  refine (not_suffix _ _ _ Hurl). by vm_compute.
Qed.

(** C1 (amended): for a request with an image, [app.py] sends the value of
    [GEMINI_API_KEY] whenever that variable is set and not empty, whatever
    the request supplies, and otherwise the [apiKey] of the request;
    [server.py] never reads the variable and always sends the [apiKey] of
    the request. *)
Theorem c1_credential_resolution rt tr i fields :
  on_route i ->
  payload_of rt i = Ok (JObj fields) ->
  truthy (image_of fields) = true ->
  (forall k get_json,
     i = AppCall (Some k) get_json -> k <> [] -> sent_with rt tr i (JStr k)) /\
  (forall key_var get_json,
     i = AppCall key_var get_json ->
     key_var = None \/ key_var = Some [] ->
     truthy (supplied_key fields) = true ->
     sent_with rt tr i (supplied_key fields)) /\
  (forall key_var path rfile,
     i = ServerCall key_var path rfile ->
     truthy (supplied_key fields) = true ->
     sent_with rt tr i (supplied_key fields)).
Proof.
  intros Hroute Hpay Himg.
  assert (forall api_key,
            credential i fields = api_key -> truthy api_key = true ->
            sent_with rt tr i api_key) as Hsent.
  { intros api_key <- Hkey.
    exists (request_with rt i (credential i fields) fields). split.
    - rewrite (handle_proceeds rt i fields) by done. done.
    - destruct i; apply gemini_url_key. }
  split; [|split].
  - intros k get_json -> Hk. apply Hsent; by destruct k.
  - intros key_var get_json -> [-> | ->] Hkey; by apply Hsent.
  - intros key_var path rfile -> Hkey. by apply Hsent.
Qed.

Lemma c1_credential_resolution_witness :
  sent_with python (replies (upstream_body text_five))
    (AppCall (Some (py "ENV")) (Ok (JObj fields_full))) (JStr (py "ENV")) /\
  sent_with python (replies (upstream_body text_five))
    (AppCall None (Ok (JObj fields_full))) (JStr (py "REQ")) /\
  sent_with python (replies (upstream_body text_five))
    (ServerCall (Some (py "ENV")) (py "/api/gemini") (Ok (encode body_full)))
    (JStr (py "REQ")).
Proof.
  split; [|split].
  - refine (proj1 (c1_credential_resolution python _
                     (AppCall (Some (py "ENV")) (Ok (JObj fields_full)))
                     fields_full I eq_refl eq_refl)
              _ _ eq_refl _).
    done.
  - refine (proj1 (proj2
              (c1_credential_resolution python _
                 (AppCall None (Ok (JObj fields_full)))
                 fields_full I eq_refl eq_refl))
              _ _ eq_refl _ eq_refl).
    by left.
  - refine (proj2 (proj2
              (c1_credential_resolution python _
                 (ServerCall (Some (py "ENV")) (py "/api/gemini")
                    (Ok (encode body_full)))
                 fields_full eq_refl eq_refl eq_refl))
              _ _ _ eq_refl eq_refl).
Defined.

(** *** C2: what normalisation removes *)

(** C2, as stated, fails: a fence strictly inside the text is removed too.
    The text [a```b] has no white space or fence at either end, and it is
    normalised to [ab]. *)
Lemma c2_interior_fence_removed :
  ~ (forall a b : text,
       a <> [] -> b <> [] ->
       contains fence a = false -> contains fence b = false ->
       strip (a ++ fence ++ b) = a ++ fence ++ b ->
       normalize (a ++ fence ++ b) = a ++ fence ++ b).
Proof.
  intros H. specialize (H (py "a") (py "b")).
  assert (normalize (py "a```b") = py "ab") as E by reflexivity.
  change (py "a" ++ fence ++ py "b") with (py "a```b") in H.
  rewrite E in H. by discriminate H.
Qed.

(** C2 (amended): the expression of both files is a pure string transform,
    [normalize]; it removes every occurrence of the JSON-flavoured marker and
    then of the generic marker, wherever it stands in the text, and trims the
    white space around the result.  For a text made of pieces without
    backticks, separated by fences, the result is exactly the pieces joined
    in their order, a piece that follows a fence and begins with [json]
    having lost that [json], and trimmed.  For every text no fence is left,
    no white space surrounds the result, the characters that remain keep
    their order, and a text without a fence is only trimmed. *)
Theorem c2_normalize_removes_every_fence (t : text) :
  clean_of (JStr t) = Ok (normalize t) /\
  (forall s0 segs,
     tick_free s0 = true -> forallb tick_free segs = true ->
     t = fenced s0 segs ->
     normalize t = strip (s0 ++ flat_map untag segs)) /\
  contains fence (normalize t) = false /\
  contains fence_json (normalize t) = false /\
  strip (normalize t) = normalize t /\
  normalize t `sublist_of` t /\
  (contains fence t = false -> normalize t = strip t).
Proof.
  split; [done|].
  split; [intros s0 segs Hs0 Hsegs ->; by apply normalize_pieces|].
  split; [apply normalize_fence_free|].
  split.
  { rewrite fence_json_split. apply contains_longer, normalize_fence_free. }
  split; [apply strip_idem|].
  split; [apply normalize_sublist|apply normalize_absent].
Qed.

Lemma c2_normalize_removes_every_fence_witness :
  normalize (py " [1```json, 2```] ") = py "[1, 2]" /\
  normalize (py "  [1, 2] ") = strip (py "  [1, 2] ").
Proof.
  split.
  - exact (proj1 (proj2 (c2_normalize_removes_every_fence
                           (py " [1```json, 2```] ")))
             (py " [1") [py "json, 2"; py "] "] eq_refl eq_refl eq_refl).
  - apply (c2_normalize_removes_every_fence (py "  [1, 2] ")). reflexivity.
Defined.

(** *** C3: the shape of the rows returned *)

(** C3, as stated, fails for a scalar: when the model's text is [5], the
    parsed value is the number 5 and the relay returns [[5]], not [5]. *)
Lemma c3_scalar_is_wrapped :
  ~ (forall rt tr i req raw rows,
       calls tr (handle rt i) = [req] -> tr req = Fetched raw ->
       loaded_rows rt raw = Ok rows ->
       (forall fields, rows <> JObj fields) ->
       answer tr (handle rt i) = reply 200 "rows" rows).
Proof.
  intros H.
  specialize (H python (replies (upstream_body text_five))
                (AppCall None (Ok (JObj fields_full))) _
                (upstream_body text_five) (JInt 5) eq_refl eq_refl eq_refl).
  assert (answer (replies (upstream_body text_five))
            (handle python (AppCall None (Ok (JObj fields_full))))
          = reply 200 "rows" (JArr [JInt 5])) as E by reflexivity.
  rewrite E in H. by discriminate H.
Qed.

(** C3 (amended): once the normalised text has parsed, a single object is
    returned as a one-element array holding that object, an array is
    returned as it is, whatever its elements, and every other value (a
    string, number, boolean or null) is wrapped in a one-element array
    too. *)
Theorem c3_rows_shape rt tr i req raw rows :
  calls tr (handle rt i) = [req] ->
  tr req = Fetched raw ->
  loaded_rows rt raw = Ok rows ->
  (forall fields, rows = JObj fields ->
     answer tr (handle rt i) = reply 200 "rows" (JArr [JObj fields])) /\
  (forall items, rows = JArr items ->
     answer tr (handle rt i) = reply 200 "rows" (JArr items)) /\
  (is_list rows = false ->
     answer tr (handle rt i) = reply 200 "rows" (JArr [rows])).
Proof.
  intros Hcalls Hreply Hrows.
  rewrite (answer_of_call _ _ _ _ Hcalls), Hreply.
  rewrite after_call_fetched. unfold on_response. step_result. rewrite Hrows. step_result.
  split; [|split].
  - by intros fields ->.
  - by intros items ->.
  - unfold as_rows. by intros ->.
Qed.

Lemma c3_rows_shape_witness :
  answer (replies (upstream_body doc_row))
    (handle python (AppCall None (Ok (JObj fields_full))))
  = reply 200 "rows" (JArr [row]).
Proof.
  refine (proj1 (c3_rows_shape python (replies (upstream_body doc_row))
                   (AppCall None (Ok (JObj fields_full))) _
                   (upstream_body doc_row) row eq_refl eq_refl eq_refl)
            _ eq_refl).
Defined.

(** *** C4: missing input *)

(** C4, as stated, fails for a request whose body is not a JSON object: the
    body [[1]] carries no image and no credential, and [server.py] answers
    it 500, from the [AttributeError] of [payload.get], not 400. *)
Lemma c4_non_object_body_is_500 :
  ~ (forall rt tr i,
       on_route i ->
       (forall fields,
          payload_of rt i = Ok (JObj fields) ->
          truthy (image_of fields) = false) ->
       calls tr (handle rt i) = [] /\
       exists message, answer tr (handle rt i) = error_reply 400 message).
Proof.
  intros H.
  destruct (H MoreSample.python (replies (upstream_body text_five))
              (ServerCall None (py "/api/gemini") (Ok MoreSample.body_list))
              eq_refl) as [_ [message Hanswer]].
  - intros fields Hpay. discriminate Hpay.
  - vm_compute in Hanswer. discriminate Hanswer.
Qed.

(** C4 (amended): a request whose body decodes to a JSON object and whose
    image is empty, or for which no credential is configured or supplied, is
    answered with status 400 and an error message, and nothing is sent
    upstream.  A request whose body is not a JSON object, or cannot be read
    or decoded, is not sent upstream either; it is answered 500, except that
    [app.py] answers 400 when the decoded value is falsy. *)
Theorem c4_missing_input_fails_fast rt tr i :
  on_route i ->
  (forall fields,
     payload_of rt i = Ok (JObj fields) ->
     truthy (image_of fields) = false \/
     (truthy (environ_get (key_var_of i)) = false /\
      truthy (supplied_key fields) = false) ->
     calls tr (handle rt i) = [] /\
     exists message, answer tr (handle rt i) = error_reply 400 message) /\
  (forall v,
     payload_of rt i = Ok v ->
     (forall fields, v <> JObj fields) ->
     calls tr (handle rt i) = [] /\
     exists message,
       answer tr (handle rt i) =
         error_reply
           (match i with
            | AppCall _ _ => if truthy v then 500 else 400
            | ServerCall _ _ _ => 500
            end) message) /\
  (forall e,
     payload_of rt i = Raise e ->
     calls tr (handle rt i) = [] /\
     exists message, answer tr (handle rt i) = error_reply 500 message).
Proof.
  intros Hroute. split; [|split].
  - intros fields Hpay Hmiss.
    destruct (handle_rejects rt i fields Hroute Hpay) as [m ->].
    + destruct Hmiss as [Himg|[Henv Hkey]]; [by right|left].
      destruct i; simpl in *; [by rewrite Henv|done].
    + split; [done|]. by exists m.
  - intros v Hpay Hobj.
    destruct i as [key_var get_json|key_var path rfile]; simpl in *.
    + subst get_json. unfold App.gemini_proxy, App.before_urlopen, py_or.
      step_result.
      destruct (truthy v) eqn:Ev; cbn [negb]; [|split; [done|by eexists]].
      destruct v; try (by destruct (Hobj fields));
        destruct (truthy (environ_get key_var)); (split; [done|by eexists]).
    + unfold Server.do_POST. rewrite decide_True by done.
      unfold Server.before_urlopen.
      destruct rfile as [raw|e]; [|done]. simpl in Hpay. step_result.
      rewrite Hpay. step_result.
      destruct v; try (by destruct (Hobj fields)); (split; [done|by eexists]).
  - intros e Hpay.
    destruct i as [key_var get_json|key_var path rfile]; simpl in *.
    + subst get_json. unfold App.gemini_proxy. simpl. split; [done|].
      destruct (except_clauses_error rt e) as [m ->]. by exists m.
    + unfold Server.do_POST. rewrite decide_True by done.
      assert (Server.before_urlopen rt rfile = Raise e) as ->.
      { unfold Server.before_urlopen. destruct rfile as [raw|e']; step_result.
        - by rewrite Hpay.
        - by simplify_eq. }
      split; [done|by eexists].
Qed.

Lemma c4_missing_input_fails_fast_witness :
  (calls (replies (upstream_body text_five))
     (handle python
        (ServerCall None (py "/api/gemini") (Ok (encode body_no_image))))
   = [] /\
   exists message,
     answer (replies (upstream_body text_five))
       (handle python
          (ServerCall None (py "/api/gemini") (Ok (encode body_no_image))))
     = error_reply 400 message) /\
  (calls (replies (upstream_body text_five))
     (handle MoreSample.python
        (ServerCall None (py "/api/gemini") (Ok MoreSample.body_list)))
   = [] /\
   exists message,
     answer (replies (upstream_body text_five))
       (handle MoreSample.python
          (ServerCall None (py "/api/gemini") (Ok MoreSample.body_list)))
     = error_reply 500 message) /\
  (calls (replies (upstream_body text_five))
     (handle python (AppCall None (Raise (OtherException (py "400 Bad Request")))))
   = [] /\
   exists message,
     answer (replies (upstream_body text_five))
       (handle python
          (AppCall None (Raise (OtherException (py "400 Bad Request")))))
     = error_reply 500 message).
Proof.
  split; [|split].
  - refine (proj1 (c4_missing_input_fails_fast python _
                     (ServerCall None (py "/api/gemini")
                        (Ok (encode body_no_image))) eq_refl)
              fields_no_image eq_refl _).
    left. reflexivity.
  - refine (proj1 (proj2 (c4_missing_input_fails_fast MoreSample.python _
                     (ServerCall None (py "/api/gemini")
                        (Ok MoreSample.body_list)) eq_refl))
              (JArr [JInt 1]) eq_refl _).
    intros fields H. discriminate H.
  - exact (proj2 (proj2 (c4_missing_input_fails_fast python _
                     (AppCall None (Raise (OtherException (py "400 Bad Request"))))
                     I))
             (OtherException (py "400 Bad Request")) eq_refl).
Defined.

(** *** C5: an upstream rejection is forwarded *)

(** C5 fails on the code for an error body that cannot be decoded: with an
    upstream answer 429 whose body is the byte [0xff], [e.read().decode()]
    raises inside the [HTTPError] clause, outside the inner [try].
    [server.py] then answers 500 with the text of that exception from its
    outer [except], and in [app.py] the exception leaves [gemini_proxy];
    neither forwards the status 429. *)
Lemma c5_undecodable_error_body :
  answer (MoreSample.rejects_undecodable 429 MoreSample.not_utf8)
    (handle Sample.python
       (ServerCall None (py "/api/gemini") (Ok (encode body_full))))
  = error_reply 500 (py
      "'utf-8' codec can't decode byte 0xff in position 0: invalid start byte") /\
  answer (MoreSample.rejects_undecodable 429 MoreSample.not_utf8)
    (handle Sample.python (AppCall None (Ok (JObj fields_full))))
  = Escapes MoreSample.not_utf8 /\
  calls (MoreSample.rejects_undecodable 429 MoreSample.not_utf8)
    (handle Sample.python (AppCall None (Ok (JObj fields_full))))
  = [request_with Sample.python (AppCall None (Ok (JObj fields_full)))
       (JStr (py "REQ")) fields_full].
Proof. split; [|split]; reflexivity. Qed.

(** X16: when the upstream answers with an HTTP error whose body is read
    and decoded, the relay answers with the upstream's status code and the
    message [Gemini API error: ] followed by the [error.message] field of the
    upstream body when that body is JSON of this shape, and by the raw body
    otherwise. *)
Theorem decodable_rejection_is_forwarded rt tr i req code err_body :
  calls tr (handle rt i) = [req] ->
  tr req = HTTPError code (Ok err_body) ->
  answer tr (handle rt i) =
    error_reply code
      (py "Gemini API error: " ++
       match error_message_field rt err_body with
       | Some message => py_str rt message
       | None => err_body
       end).
Proof.
  intros Hcalls Hraise.
  rewrite (answer_of_call _ _ _ _ Hcalls), Hraise, after_call_rejected.
  unfold on_http_error. do 3 f_equal.
  unfold upstream_message, error_message_field, get.
  destruct (json_loads rt err_body) as [v|e]; step_result; [|done].
  destruct v; step_result; try done.
  rewrite (dict_get_default fields (py "error") (JObj []) JNull).
  destruct (has_key fields (py "error")); [|done].
  destruct (dict_get fields (py "error") JNull); step_result; try done.
  rewrite (dict_get_default _ (py "message") (JStr err_body) JNull).
  by destruct (has_key _ (py "message")).
Qed.

Lemma decodable_rejection_is_forwarded_witness :
  answer (rejects 429 doc_rate_limited)
    (handle Sample.python (AppCall None (Ok (JObj fields_full))))
  = error_reply 429 (py "Gemini API error: rate limited").
Proof.
  exact (decodable_rejection_is_forwarded Sample.python
           (rejects 429 doc_rate_limited)
           (AppCall None (Ok (JObj fields_full))) _ 429 doc_rate_limited
           eq_refl eq_refl).
Defined.

(** *** C6: unusable content *)

(** C6, as stated, fails in its last part: when the model answers with the
    prose [hello world], the error message names the decoder's complaint and
    the position, and the offending text is nowhere in it. *)
Lemma c6_parse_error_omits_raw_text :
  ~ (forall rt tr i req raw result t msg doc pos,
       calls tr (handle rt i) = [req] -> tr req = Fetched raw ->
       json_loads_bytes rt raw = Ok result ->
       envelope_text result = Ok (JStr t) ->
       json_loads rt (normalize t) = Raise (JSONDecodeError msg doc pos) ->
       exists message,
         answer tr (handle rt i) = error_reply 500 message /\
         occurs t message).
Proof.
  intros H.
  destruct (H python (replies (upstream_body text_prose))
              (AppCall None (Ok (JObj fields_full))) _
              (upstream_body text_prose) (envelope (JStr text_prose))
              text_prose (py "Expecting value") text_prose 0
              eq_refl eq_refl eq_refl eq_refl eq_refl)
    as (message & Hanswer & Hoccurs).
  assert (message =
          py "Failed to parse Gemini response: Expecting value: line 1 column 1 (char 0)")
    as ->.
  { vm_compute in Hanswer. by injection Hanswer as <-. }
  revert Hoccurs. apply contains_absent. reflexivity.
Qed.

(** C6 (amended): when the transport succeeds but the content is unusable,
    the relay answers 500: when a subscription of the envelope fails, when
    the text found is not a string, and when the normalised text does not
    parse.  In the last case the message is exactly [Failed to parse Gemini
    response: ] followed by the decoder's message and the line, column and
    character position of the failure. *)
Theorem c6_unusable_content_is_500 rt tr i req raw result :
  calls tr (handle rt i) = [req] ->
  tr req = Fetched raw ->
  json_loads_bytes rt raw = Ok result ->
  (forall e, envelope_text result = Raise e ->
     exists message, answer tr (handle rt i) = error_reply 500 message) /\
  (forall v, envelope_text result = Ok v -> (forall t, v <> JStr t) ->
     exists message, answer tr (handle rt i) = error_reply 500 message) /\
  (forall t msg doc pos,
     envelope_text result = Ok (JStr t) ->
     json_loads rt (normalize t) = Raise (JSONDecodeError msg doc pos) ->
     answer tr (handle rt i) =
       error_reply 500
         (py "Failed to parse Gemini response: " ++ decode_error_text msg doc pos)).
Proof.
  intros Hcalls Hreply Hresult.
  rewrite (answer_of_call _ _ _ _ Hcalls), Hreply.
  rewrite after_call_fetched. unfold on_response, loaded_rows. step_result.
  rewrite Hresult. step_result.
  split; [|split].
  - intros e He. rewrite He. step_result.
    apply envelope_text_raises in He.
    destruct e; try done; by eexists.
  - intros v Hv Hstr. rewrite Hv. step_result.
    destruct v; try (by eexists). by destruct (Hstr s).
  - intros t msg doc pos Ht Hparse. rewrite Ht. step_result.
    rewrite clean_of_str. step_result. by rewrite Hparse.
Qed.

Lemma c6_unusable_content_is_500_witness :
  answer (replies (upstream_body text_prose))
    (handle python (AppCall None (Ok (JObj fields_full))))
  = error_reply 500
      (py "Failed to parse Gemini response: "
         ++ decode_error_text (py "Expecting value") text_prose 0).
Proof.
  refine (proj2 (proj2
            (c6_unusable_content_is_500 python
               (replies (upstream_body text_prose))
               (AppCall None (Ok (JObj fields_full))) _
               (upstream_body text_prose) (envelope (JStr text_prose))
               eq_refl eq_refl eq_refl))
            text_prose (py "Expecting value") text_prose 0 eq_refl eq_refl).
Defined.

(** *** C7: normalisation applied twice, and fenced arrays *)

(** C7, as stated, fails in its middle part: the array [["a```b"]],
    serialised and wrapped in JSON fences, comes back as [["ab"]]. *)
Lemma c7_fenced_array_altered :
  ~ (forall rt tr i req raw result doc items,
       calls tr (handle rt i) = [req] -> tr req = Fetched raw ->
       json_loads_bytes rt raw = Ok result ->
       envelope_text result =
         Ok (JStr (fence_json ++ [newline] ++ doc ++ [newline] ++ fence)) ->
       json_loads rt doc = Ok (JArr items) ->
       answer tr (handle rt i) = reply 200 "rows" (JArr items)).
Proof.
  intros H.
  specialize (H python (replies (upstream_body text_fenced_ticks))
                (ServerCall None (py "/api/gemini") (Ok (encode body_full))) _
                (upstream_body text_fenced_ticks)
                (envelope (JStr text_fenced_ticks))
                doc_a_fence_b [JStr (py "a```b")]
                eq_refl eq_refl eq_refl eq_refl eq_refl).
  assert (answer (replies (upstream_body text_fenced_ticks))
            (handle python
               (ServerCall None (py "/api/gemini") (Ok (encode body_full))))
          = reply 200 "rows" (JArr [JStr (py "ab")])) as E by reflexivity.
  rewrite E in H. by discriminate H.
Qed.

(** C7 (amended): normalising twice is the same as normalising once, for
    every text; a text without fences and without white space around it is
    left as it is; and for a text wrapped in the JSON fences whose inside
    holds no fence, what is parsed is exactly the inside, trimmed, so that
    the relay returns the array it denotes. *)
Theorem c7_normalize_idempotent :
  (forall t, normalize (normalize t) = normalize t) /\
  (forall s, contains fence s = false -> strip s = s -> normalize s = s) /\
  (forall u, contains fence u = false ->
     normalize (fence_json ++ u ++ fence) = strip u) /\
  (forall rt tr i req raw result u items,
     calls tr (handle rt i) = [req] -> tr req = Fetched raw ->
     json_loads_bytes rt raw = Ok result ->
     envelope_text result = Ok (JStr (fence_json ++ u ++ fence)) ->
     contains fence u = false ->
     json_loads rt (strip u) = Ok (JArr items) ->
     answer tr (handle rt i) = reply 200 "rows" (JArr items)).
Proof.
  split; [apply normalize_idem|].
  split; [intros s Hs Hstrip; by rewrite normalize_absent|].
  split; [apply normalize_fenced|].
  intros rt tr i req raw result u items Hcalls Hreply Hresult Htext Hu Hparse.
  rewrite (answer_of_call _ _ _ _ Hcalls), Hreply.
  rewrite after_call_fetched. unfold on_response, loaded_rows. step_result.
  rewrite Hresult. step_result. rewrite Htext. step_result.
  rewrite clean_of_str. step_result.
  rewrite (normalize_fenced u Hu), Hparse. done.
Qed.

Lemma c7_normalize_idempotent_witness :
  answer (replies (upstream_body text_fenced_rows))
    (handle python (AppCall None (Ok (JObj fields_full))))
  = reply 200 "rows" (JArr [row]).
Proof.
  refine (proj2 (proj2 (proj2 c7_normalize_idempotent))
            python (replies (upstream_body text_fenced_rows))
            (AppCall None (Ok (JObj fields_full))) _
            (upstream_body text_fenced_rows)
            (envelope (JStr text_fenced_rows))
            ([newline] ++ py "[" ++ doc_row ++ py "]" ++ [newline]) [row]
            eq_refl eq_refl eq_refl eq_refl eq_refl eq_refl).
Defined.

(** *** C8: one attempt, one answer *)

(** C8, as stated, fails for [server.py]: with [GEMINI_API_KEY] configured
    and a request that carries an image and no [apiKey], both preconditions
    of the contract hold, and [server.py] makes no call at all. *)
Lemma c8_server_needs_request_key :
  ~ (forall rt tr i fields,
       on_route i ->
       payload_of rt i = Ok (JObj fields) ->
       truthy (image_of fields) = true ->
       truthy (contract_credential i fields) = true ->
       length (calls tr (handle rt i)) = 1).
Proof.
  intros H.
  specialize (H MoreSample.python (replies (upstream_body text_five))
                (ServerCall (Some (py "ENV")) (py "/api/gemini")
                   (Ok MoreSample.body_image_only))
                MoreSample.fields_image_only eq_refl eq_refl eq_refl eq_refl).
  vm_compute in H. discriminate H.
Qed.

(** C8 (amended): whatever the transport does, a run calls [urlopen] at most
    once; exactly once, with the request built from the inputs, when the
    body is an object with an image and the credential the file itself
    uses is not empty ([app.py]: the configured key, else the [apiKey] of
    the request; [server.py]: the [apiKey] of the request).  Without a call
    the answer is a 400 or 500 error, or the bare 404 off the route.  After
    the call, rows are answered only when the reply was fetched and parsed;
    a reply that does not parse is answered 500, an [HTTPError] whose body
    is decoded with the upstream's status, a [URLError] with 502 and its
    reason, and any other exception with 500: each as one error object on
    the same request. *)
Theorem c8_single_attempt rt tr i :
  length (calls tr (handle rt i)) <= 1 /\
  (forall key_var get_json fields,
     i = AppCall key_var get_json ->
     payload_of rt i = Ok (JObj fields) ->
     truthy (contract_credential i fields) = true ->
     truthy (image_of fields) = true ->
     calls tr (handle rt i)
     = [request_with rt i (contract_credential i fields) fields]) /\
  (forall key_var path rfile fields,
     i = ServerCall key_var path rfile ->
     on_route i ->
     payload_of rt i = Ok (JObj fields) ->
     truthy (supplied_key fields) = true ->
     truthy (image_of fields) = true ->
     calls tr (handle rt i) = [request_with rt i (supplied_key fields) fields]) /\
  (calls tr (handle rt i) = [] ->
   (exists code message,
      (code = 400 \/ code = 500)%Z /\
      answer tr (handle rt i) = error_reply code message) \/
   answer tr (handle rt i) = Answer {| status := 404; body := None |}) /\
  (forall req,
     calls tr (handle rt i) = [req] ->
     (forall raw rows,
        tr req = Fetched raw -> loaded_rows rt raw = Ok rows ->
        answer tr (handle rt i) = reply 200 "rows" (as_rows rows)) /\
     (forall raw e,
        tr req = Fetched raw -> loaded_rows rt raw = Raise e ->
        exists message, answer tr (handle rt i) = error_reply 500 message) /\
     (forall code err_body,
        tr req = HTTPError code (Ok err_body) ->
        exists message, answer tr (handle rt i) = error_reply code message) /\
     (forall reason,
        tr req = URLError reason ->
        answer tr (handle rt i) =
          error_reply 502 (py "Could not reach Gemini API: " ++ reason)) /\
     (forall e,
        tr req = Failed e ->
        exists message, answer tr (handle rt i) = error_reply 500 message)).
Proof.
  split; [apply calls_at_most_one|]. split; [|split; [|split]].
  - intros key_var get_json fields -> Hpay Hkey Himg.
    by rewrite (handle_proceeds rt _ fields).
  - intros key_var path rfile fields -> Hroute Hpay Hkey Himg.
    by rewrite (handle_proceeds rt _ fields).
  - apply answer_without_call.
  - intros req Hcalls. rewrite (answer_of_call _ _ _ _ Hcalls).
    split; [|split; [|split; [|split]]].
    + intros raw rows -> Hrows. rewrite after_call_fetched.
      unfold on_response. by rewrite Hrows.
    + intros raw e -> Hrows. rewrite after_call_fetched.
      unfold on_response. rewrite Hrows. step_result.
      destruct (except_clauses_error rt e) as [m ->]. by exists m.
    + intros code err_body ->. rewrite after_call_rejected. by eexists.
    + intros reason ->. by rewrite after_call_unreachable.
    + intros e ->. rewrite after_call_failed.
      destruct (except_clauses_error rt e) as [m ->]. by exists m.
Qed.

Lemma c8_single_attempt_witness :
  calls (unreachable (py "timed out"))
    (handle python (AppCall (Some (py "ENV")) (Ok (JObj fields_full))))
  = [request_with python (AppCall (Some (py "ENV")) (Ok (JObj fields_full)))
       (JStr (py "ENV")) fields_full] /\
  answer (unreachable (py "timed out"))
    (handle python (AppCall (Some (py "ENV")) (Ok (JObj fields_full))))
  = error_reply 502 (py "Could not reach Gemini API: timed out") /\
  calls (rejects 429 doc_rate_limited)
    (handle python (ServerCall (Some (py "ENV")) (py "/api/gemini")
                      (Ok (encode body_full))))
  = [request_with python
       (ServerCall (Some (py "ENV")) (py "/api/gemini") (Ok (encode body_full)))
       (JStr (py "REQ")) fields_full] /\
  exists message,
    answer (rejects 429 doc_rate_limited)
      (handle python (ServerCall (Some (py "ENV")) (py "/api/gemini")
                        (Ok (encode body_full))))
    = error_reply 429 message.
Proof.
  pose proof (c8_single_attempt python (unreachable (py "timed out"))
                (AppCall (Some (py "ENV")) (Ok (JObj fields_full))))
    as (_ & Happ & _ & _ & Hafter).
  pose proof (c8_single_attempt python (rejects 429 doc_rate_limited)
                (ServerCall (Some (py "ENV")) (py "/api/gemini")
                   (Ok (encode body_full))))
    as (_ & _ & Hserver & _ & Hafter').
  split; [exact (Happ _ _ fields_full eq_refl eq_refl eq_refl eq_refl)|].
  split.
  { exact (proj1 (proj2 (proj2 (proj2
             (Hafter _ (Happ _ _ fields_full eq_refl eq_refl eq_refl eq_refl)))))
             (py "timed out") eq_refl). }
  split; [exact (Hserver _ _ _ fields_full eq_refl eq_refl eq_refl eq_refl
                   eq_refl)|].
  exact (proj1 (proj2 (proj2
           (Hafter' _ (Hserver _ _ _ fields_full eq_refl eq_refl eq_refl eq_refl
                         eq_refl))))
           429%Z doc_rate_limited eq_refl).
Defined.

(** *** C9: the rows of a success are an array *)

(** C9: every answer with status 200 has the form [{"rows": [...]}] with an
    array as the value, given that the transport raises [HTTPError] only for
    a status outside 200..299, as [urllib] does; and a parsed value that is
    not an array, an object or a scalar alike, is returned as the one-element
    array holding it. *)
Theorem c9_rows_is_always_array rt tr i :
  http_errors_are_failures tr ->
  (answer_status (answer tr (handle rt i)) = Some 200%Z ->
   exists items,
     answer tr (handle rt i) = reply 200 "rows" (JArr items) /\
     answer_field "rows" (answer tr (handle rt i)) = Some (JArr items)) /\
  (forall req raw rows,
     calls tr (handle rt i) = [req] -> tr req = Fetched raw ->
     loaded_rows rt raw = Ok rows -> is_list rows = false ->
     answer tr (handle rt i) = reply 200 "rows" (JArr [rows]) /\
     answer_field "rows" (answer tr (handle rt i)) = Some (JArr [rows])).
Proof.
  intros Htr. split.
  - intros Hstatus.
    destruct (answer_cases rt tr i)
      as [[items H]|[(req & code & b & m & Hout & H)
                    |[(code & m & Hcode & H)|[H|[e H]]]]];
      rewrite H in Hstatus |- *; simpl in Hstatus.
    + by exists items.
    + apply Htr in Hout. injection Hstatus as ->. lia.
    + injection Hstatus as ->. lia.
    + done.
    + done.
  - intros req raw rows Hcalls Hreply Hrows Hlist.
    rewrite (answer_of_call _ _ _ _ Hcalls), Hreply.
    rewrite after_call_fetched. unfold on_response. step_result.
    rewrite Hrows. step_result.
    unfold as_rows. by rewrite Hlist.
Qed.

Lemma replies_never_rejects raw : http_errors_are_failures (replies raw).
Proof. intros req code err_body H. discriminate H. Defined.

Lemma c9_rows_is_always_array_witness :
  answer_field "rows"
    (answer (replies (upstream_body text_five))
       (handle python (AppCall None (Ok (JObj fields_full)))))
  = Some (JArr [JInt 5]).
Proof.
  exact (proj2 (proj2
           (c9_rows_is_always_array python (replies (upstream_body text_five))
              (AppCall None (Ok (JObj fields_full)))
              (replies_never_rejects _))
           _ (upstream_body text_five) (JInt 5) eq_refl eq_refl eq_refl eq_refl)).
Defined.

(** *** C10: the default MIME type *)

(** C10: when the request has no [mimeType] field the relay does not fail on
    it.  With an image and a credential it sends its one request, and the
    image inlined in the upstream payload is tagged [image/jpeg]; and in
    every case the run is the run of the same request with
    [mimeType] set to [image/jpeg]. *)
Theorem c10_mime_type_defaults rt tr i fields :
  on_route i ->
  payload_of rt i = Ok (JObj fields) ->
  has_key fields (py "mimeType") = false ->
  (truthy (credential i fields) = true ->
   truthy (image_of fields) = true ->
   exists req,
     calls tr (handle rt i) = [req] /\
     answer tr (handle rt i) = after_call rt i (tr req) /\
     inline_mime_type (data req) = Ok (JStr (py "image/jpeg"))) /\
  (forall i',
     same_endpoint i i' ->
     payload_of rt i' = Ok (JObj (explicit_mime fields)) ->
     fields <> [] ->
     handle rt i = handle rt i').
Proof.
  intros Hroute Hpay Hmime. split.
  - intros Hkey Himg.
    exists (request_with rt i (credential i fields) fields).
    rewrite (handle_proceeds rt i fields) by done.
    split; [done|]. split; [done|].
    assert (mime_of fields = JStr (py "image/jpeg")) as Hdefault.
    { unfold mime_of. rewrite (dict_get_default _ _ _ JNull). by rewrite Hmime. }
    destruct i; simpl; by rewrite Hdefault.
  - intros i' Hsame Hpay' Hfields.
    destruct (explicit_mime_inputs fields Hmime) as (Ekey & Eimg & Emime).
    unfold supplied_key, image_of, mime_of in Ekey, Eimg, Emime.
    destruct i as [key_var get_json|key_var path rfile],
      i' as [key_var' get_json'|key_var' path' rfile']; simpl in *; try done.
    + subst. unfold App.gemini_proxy, App.before_urlopen, get. step_result.
      rewrite Ekey, Eimg, Emime.
      destruct fields as [|kv fields]; done.
    + destruct Hsame as [-> ->].
      destruct rfile as [raw|e]; [|done]. destruct rfile' as [raw'|e']; [|done].
      simpl in Hpay, Hpay'.
      unfold Server.do_POST, Server.before_urlopen, get. step_result.
      rewrite Hpay, Hpay'. step_result. by rewrite Ekey, Eimg, Emime.
Qed.

Lemma c10_mime_type_defaults_witness :
  (exists req,
     calls (replies (upstream_body text_five))
       (handle python
          (ServerCall None (py "/api/gemini") (Ok (encode body_full)))) = [req] /\
     answer (replies (upstream_body text_five))
       (handle python
          (ServerCall None (py "/api/gemini") (Ok (encode body_full))))
     = after_call python
         (ServerCall None (py "/api/gemini") (Ok (encode body_full)))
         (replies (upstream_body text_five) req) /\
     inline_mime_type (data req) = Ok (JStr (py "image/jpeg"))) /\
  handle python (ServerCall None (py "/api/gemini") (Ok (encode body_full)))
  = handle python
      (ServerCall None (py "/api/gemini") (Ok (encode body_explicit_mime))).
Proof.
  pose proof (c10_mime_type_defaults python (replies (upstream_body text_five))
                (ServerCall None (py "/api/gemini") (Ok (encode body_full)))
                fields_full eq_refl eq_refl eq_refl) as [Hsend Hsame].
  split.
  - exact (Hsend eq_refl eq_refl).
  - exact (Hsame (ServerCall None (py "/api/gemini")
                    (Ok (encode body_explicit_mime)))
             (conj eq_refl eq_refl) eq_refl ltac:(discriminate)).
Defined.

(** ** Further properties of the two files *)

Import AppRoutes Probe MoreSample.

(** *** The status route and the relay of app.py *)

(** X1: [status] reports [keyConfigured] truthfully for [gemini_proxy]: for
    a request with an image and no [apiKey] of its own, the relay sends its
    request, with the configured key, exactly when [status] says [true], and
    answers 400 without calling upstream when it says [false]. *)
Theorem status_matches_proxy rt tr key_var fields :
  truthy (image_of fields) = true ->
  truthy (supplied_key fields) = false ->
  (status key_var = reply 200 "keyConfigured" (JBool true) /\
   calls tr (App.gemini_proxy rt key_var (Ok (JObj fields)))
   = [gemini_request rt App.GEMINI_MODEL 4096 120 (environ_get key_var)
        (image_of fields) (mime_of fields)]) \/
  (status key_var = reply 200 "keyConfigured" (JBool false) /\
   run tr (App.gemini_proxy rt key_var (Ok (JObj fields)))
   = (Answer (error_reply 400 (py
        "Gemini API key not configured. Set GEMINI_API_KEY environment variable on Render.")),
      [])).
Proof.
  intros Himg Hkey. unfold status.
  destruct (truthy (environ_get key_var)) eqn:E; [left|right]; split; try done.
  - pose proof (handle_proceeds rt (AppCall key_var (Ok (JObj fields))) fields I
                  eq_refl) as H.
    simpl in H. rewrite E in H. by rewrite H.
  - unfold App.gemini_proxy, App.before_urlopen, py_or, get. step_result.
    rewrite (truthy_field _ _ Himg), E. step_result.
    fold (supplied_key fields). rewrite Hkey. done.
Qed.

Lemma status_matches_proxy_witness :
  (status (Some (py "ENV")) = reply 200 "keyConfigured" (JBool true) /\
   calls (replies (upstream_body text_five))
     (App.gemini_proxy Sample.python (Some (py "ENV")) (Ok (JObj fields_image_only)))
   = [gemini_request Sample.python App.GEMINI_MODEL 4096 120
        (environ_get (Some (py "ENV")))
        (image_of fields_image_only) (mime_of fields_image_only)]) \/
  (status (Some (py "ENV")) = reply 200 "keyConfigured" (JBool false) /\
   run (replies (upstream_body text_five))
     (App.gemini_proxy Sample.python (Some (py "ENV")) (Ok (JObj fields_image_only)))
   = (Answer (error_reply 400 (py
        "Gemini API key not configured. Set GEMINI_API_KEY environment variable on Render.")),
      [])).
Proof.
  exact (status_matches_proxy Sample.python (replies (upstream_body text_five))
           (Some (py "ENV")) fields_image_only eq_refl eq_refl).
Defined.

(** *** Failures around the call *)

(** X2: when the upstream cannot be reached ([URLError]), the relay answers
    502 with [Could not reach Gemini API: ] and the reason, in both files. *)
Theorem unreachable_is_502 rt tr i req reason :
  calls tr (handle rt i) = [req] ->
  tr req = URLError reason ->
  answer tr (handle rt i) =
    error_reply 502 (py "Could not reach Gemini API: " ++ reason).
Proof.
  intros Hcalls Hout.
  by rewrite (answer_of_call _ _ _ _ Hcalls), Hout, after_call_unreachable.
Qed.

Lemma unreachable_is_502_witness :
  answer (unreachable (py "timed out"))
    (handle Sample.python
       (ServerCall None (py "/api/gemini") (Ok (encode body_full))))
  = error_reply 502 (py "Could not reach Gemini API: timed out").
Proof.
  exact (unreachable_is_502 Sample.python (unreachable (py "timed out"))
           (ServerCall None (py "/api/gemini") (Ok (encode body_full)))
           _ (py "timed out") eq_refl eq_refl).
Defined.

(** X3: a request body that cannot be read or decoded is answered 500, not
    400, and nothing is sent upstream; [server.py] gives the text of the
    exception as the message. *)
Theorem undecodable_request_is_500 rt tr i e :
  on_route i ->
  payload_of rt i = Raise e ->
  calls tr (handle rt i) = [] /\
  (exists message, answer tr (handle rt i) = error_reply 500 message) /\
  (forall key_var path rfile,
     i = ServerCall key_var path rfile ->
     answer tr (handle rt i) = error_reply 500 (exn_str rt e)).
Proof.
  intros Hroute Hpay.
  destruct i as [key_var get_json|key_var path rfile]; simpl in *.
  - subst get_json. unfold App.gemini_proxy. simpl.
    split; [done|].
    split; [destruct (except_clauses_error rt e) as [m ->]; by exists m|done].
  - unfold Server.do_POST. rewrite decide_True by done.
    assert (Server.before_urlopen rt rfile = Raise e) as ->.
    { unfold Server.before_urlopen. destruct rfile as [raw|e']; step_result.
      - by rewrite Hpay.
      - by simplify_eq. }
    split; [done|]. split; [by eexists|done].
Qed.

Lemma undecodable_request_is_500_witness :
  calls (replies (upstream_body text_five))
    (handle Sample.python
       (ServerCall None (py "/api/gemini") (Ok (encode text_prose)))) = [] /\
  answer (replies (upstream_body text_five))
    (handle Sample.python
       (ServerCall None (py "/api/gemini") (Ok (encode text_prose))))
  = error_reply 500 (py "Expecting value: line 1 column 1 (char 0)").
Proof.
  pose proof (undecodable_request_is_500 Sample.python
                (replies (upstream_body text_five))
                (ServerCall None (py "/api/gemini") (Ok (encode text_prose)))
                (JSONDecodeError (py "Expecting value") [] 0)
                eq_refl eq_refl) as (Hcalls & _ & Hanswer).
  split; [exact Hcalls|exact (Hanswer _ _ _ eq_refl)].
Defined.

(** X4: a request body that decodes to something other than an object is
    never sent upstream.  [server.py] answers 500 for every such body;
    [app.py] answers 400 [Invalid JSON body] when the value is falsy (null,
    false, 0, an empty string or list) and 500 otherwise. *)
Theorem non_object_body_is_refused rt tr i v :
  on_route i ->
  payload_of rt i = Ok v ->
  (forall fields, v <> JObj fields) ->
  calls tr (handle rt i) = [] /\
  answer tr (handle rt i) =
    match i with
    | AppCall _ _ =>
        if truthy v
        then error_reply 500 (describe rt (AttributeError v (py "get")))
        else error_reply 400 (py "Invalid JSON body")
    | ServerCall _ _ _ =>
        error_reply 500 (describe rt (AttributeError v (py "get")))
    end.
Proof.
  intros Hroute Hpay Hobj.
  destruct i as [key_var get_json|key_var path rfile]; simpl in *.
  - subst get_json. unfold App.gemini_proxy, App.before_urlopen, py_or.
    step_result.
    destruct (truthy v) eqn:Ev; cbn [negb]; [|done].
    destruct v; try (by destruct (Hobj fields));
      destruct (truthy (environ_get key_var)); done.
  - unfold Server.do_POST. rewrite decide_True by done.
    unfold Server.before_urlopen.
    destruct rfile as [raw|e]; [|done]. simpl in Hpay. step_result.
    rewrite Hpay. step_result.
    destruct v; try (by destruct (Hobj fields)); done.
Qed.

Lemma non_object_body_is_refused_witness :
  calls (replies (upstream_body text_five))
    (handle MoreSample.python
       (ServerCall (Some (py "ENV")) (py "/api/gemini") (Ok body_list))) = [] /\
  answer (replies (upstream_body text_five))
    (handle MoreSample.python
       (ServerCall (Some (py "ENV")) (py "/api/gemini") (Ok body_list)))
  = error_reply 500 (py "'list' object has no attribute 'get'").
Proof.
  refine (non_object_body_is_refused MoreSample.python
            (replies (upstream_body text_five))
            (ServerCall (Some (py "ENV")) (py "/api/gemini") (Ok body_list))
            (JArr [JInt 1]) eq_refl eq_refl _).
  intros fields H. discriminate H.
Defined.

(** X5: the 400 answers of an object body, by cause.  The credential is
    checked before the image in both files, so that a request lacking both
    is told about the credential; [app.py] first refuses the empty object as
    [Invalid JSON body], also when a key is configured. *)
Theorem rejection_messages rt tr key_var fields :
  (fields = [] ->
   answer tr (App.gemini_proxy rt key_var (Ok (JObj fields)))
   = error_reply 400 (py "Invalid JSON body")) /\
  (fields <> [] ->
   truthy (credential (AppCall key_var (Ok (JObj fields))) fields) = false ->
   answer tr (App.gemini_proxy rt key_var (Ok (JObj fields)))
   = error_reply 400 (py
       "Gemini API key not configured. Set GEMINI_API_KEY environment variable on Render.")) /\
  (fields <> [] ->
   truthy (credential (AppCall key_var (Ok (JObj fields))) fields) = true ->
   truthy (image_of fields) = false ->
   answer tr (App.gemini_proxy rt key_var (Ok (JObj fields)))
   = error_reply 400 (py "No image data received")) /\
  (forall raw,
     json_loads_bytes rt raw = Ok (JObj fields) ->
     (truthy (supplied_key fields) = false ->
      answer tr (Server.do_POST rt key_var (py "/api/gemini") (Ok raw))
      = error_reply 400 (py "Missing apiKey")) /\
     (truthy (supplied_key fields) = true ->
      truthy (image_of fields) = false ->
      answer tr (Server.do_POST rt key_var (py "/api/gemini") (Ok raw))
      = error_reply 400 (py "Missing imageB64"))).
Proof.
  assert (forall kv, fields <> [] ->
    App.before_urlopen rt kv (Ok (JObj fields)) =
    (let api_key := credential (AppCall kv (Ok (JObj fields))) fields in
     if negb (truthy api_key)
     then Ok (Return (error_reply 400 (py
       "Gemini API key not configured. Set GEMINI_API_KEY environment variable on Render.")))
     else if negb (truthy (image_of fields))
     then Ok (Return (error_reply 400 (py "No image data received")))
     else Ok (Proceed (gemini_request rt App.GEMINI_MODEL 4096 120 api_key
                         (image_of fields) (mime_of fields))))) as Happ.
  { intros kv Hne. unfold App.before_urlopen, py_or, get. step_result.
    destruct fields as [|f fields']; [done|]. cbn [truthy negb]. simpl credential.
    destruct (truthy (environ_get kv)); step_result; done. }
  split; [by intros ->|]. split; [|split].
  - intros Hne Hkey. unfold App.gemini_proxy. rewrite Happ by done.
    cbv zeta. by rewrite Hkey.
  - intros Hne Hkey Himg. unfold App.gemini_proxy.
    rewrite Happ by done. cbv zeta. by rewrite Hkey, Himg.
  - intros raw Hraw. unfold Server.do_POST. rewrite decide_True by done.
    unfold Server.before_urlopen, get. step_result. rewrite Hraw. step_result.
    fold (supplied_key fields) (image_of fields) (mime_of fields).
    split.
    + by intros ->.
    + by intros -> ->.
Qed.

Lemma rejection_messages_witness :
  answer (replies (upstream_body text_five))
    (Server.do_POST MoreSample.python None (py "/api/gemini")
       (Ok body_no_candidates))
  = error_reply 400 (py "Missing apiKey") /\
  answer (replies (upstream_body text_five))
    (App.gemini_proxy MoreSample.python None (Ok (JObj fields_no_image)))
  = error_reply 400 (py "No image data received") /\
  answer (replies (upstream_body text_five))
    (App.gemini_proxy MoreSample.python None (Ok (JObj fields_image_only)))
  = error_reply 400 (py
      "Gemini API key not configured. Set GEMINI_API_KEY environment variable on Render.").
Proof.
  split; [|split].
  - exact (proj1 (proj2 (proj2 (proj2
             (rejection_messages MoreSample.python
                (replies (upstream_body text_five)) None [])))
             body_no_candidates eq_refl) eq_refl).
  - refine (proj1 (proj2 (proj2
              (rejection_messages MoreSample.python
                 (replies (upstream_body text_five)) None fields_no_image)))
              _ eq_refl eq_refl).
    discriminate.
  - refine (proj1 (proj2
              (rejection_messages MoreSample.python
                 (replies (upstream_body text_five)) None fields_image_only))
              _ eq_refl).
    discriminate.
Defined.

(** *** The request that is sent *)

(** X6: the one request of a run is a POST with the JSON content type to the
    [generateContent] URL of the file's model, carrying the credential as
    [key]; its payload holds the image of the request unchanged, whatever
    kind of JSON value it is, the fixed prompt as second part, and the
    file's token limit.  The files differ in the model, the limit (4096 or
    2048) and the timeout (120 or 60 seconds). *)
Theorem request_contents rt tr i fields :
  on_route i ->
  payload_of rt i = Ok (JObj fields) ->
  truthy (credential i fields) = true ->
  truthy (image_of fields) = true ->
  exists req,
    calls tr (handle rt i) = [req] /\
    url req =
      py "https://generativelanguage.googleapis.com/v1beta/models/"
        ++ py (model_of i) ++ py ":generateContent?key="
        ++ py_str rt (credential i fields) /\
    method req = py "POST" /\
    headers req = [(py "Content-Type", py "application/json")] /\
    timeout req = timeout_of i /\
    at_path (data req) (inline_data_path ++ [Key (py "data")])
      = Ok (image_of fields) /\
    at_path (data req) prompt_path = Ok (JStr PROMPT) /\
    at_path (data req) [Key (py "generationConfig"); Key (py "maxOutputTokens")]
      = Ok (JInt (max_tokens_of i)).
Proof.
  intros Hroute Hpay Hkey Himg.
  exists (request_with rt i (credential i fields) fields).
  rewrite (handle_proceeds rt i fields) by done.
  split; [done|]. by destruct i.
Qed.

Lemma request_contents_witness :
  exists req,
    calls (replies (upstream_body text_five))
      (handle Sample.python (AppCall (Some (py "ENV")) (Ok (JObj fields_full))))
    = [req] /\
    url req =
      py "https://generativelanguage.googleapis.com/v1beta/models/gemini-2.5-flash-preview-04-17:generateContent?key=ENV" /\
    timeout req = 120%Z /\
    at_path (data req) (inline_data_path ++ [Key (py "data")])
      = Ok (JStr (py "QUJD")).
Proof.
  destruct (request_contents Sample.python (replies (upstream_body text_five))
              (AppCall (Some (py "ENV")) (Ok (JObj fields_full))) fields_full
              I eq_refl eq_refl eq_refl)
    as (req & Hcalls & Hurl & _ & _ & Htimeout & Himage & _).
  exists req. split; [exact Hcalls|]. split; [exact Hurl|].
  split; [exact Htimeout|exact Himage].
Defined.

(** X7: a [mimeType] that is present is passed on as it is, without
    validation and without the default: also an empty string, [null] or a
    number ends up as the [mime_type] of the inlined image. *)
Theorem mime_type_is_not_validated rt tr i fields :
  on_route i ->
  payload_of rt i = Ok (JObj fields) ->
  truthy (credential i fields) = true ->
  truthy (image_of fields) = true ->
  has_key fields (py "mimeType") = true ->
  exists req,
    calls tr (handle rt i) = [req] /\
    inline_mime_type (data req) = Ok (dict_get fields (py "mimeType") JNull).
Proof.
  intros Hroute Hpay Hkey Himg Hmime.
  exists (request_with rt i (credential i fields) fields).
  rewrite (handle_proceeds rt i fields) by done.
  split; [done|].
  assert (mime_of fields = dict_get fields (py "mimeType") JNull) as E.
  { unfold mime_of. rewrite (dict_get_default _ _ _ JNull). by rewrite Hmime. }
  destruct i; simpl; by rewrite E.
Qed.

Lemma mime_type_is_not_validated_witness :
  exists req,
    calls (replies (upstream_body text_five))
      (handle MoreSample.python
         (ServerCall None (py "/api/gemini") (Ok (encode body_null_mime))))
    = [req] /\
    inline_mime_type (data req) = Ok JNull.
Proof.
  exact (mime_type_is_not_validated MoreSample.python
           (replies (upstream_body text_five))
           (ServerCall None (py "/api/gemini") (Ok (encode body_null_mime)))
           fields_null_mime eq_refl eq_refl eq_refl eq_refl eq_refl).
Defined.

(** X8: with the same request object, no usable [GEMINI_API_KEY], and the
    same outcome of the call, the two files give the same answer, unless
    the outcome is an [HTTPError] whose body cannot be decoded: then
    [server.py] answers 500 with the text of the exception and in [app.py]
    the exception leaves the view.  The requests they send differ in nothing
    but the model, the token limit and the timeout. *)
Theorem files_agree rt tr tr' key_var path get_json rfile fields :
  truthy (environ_get key_var) = false ->
  path = py "/api/gemini" ->
  get_json = Ok (JObj fields) ->
  payload_of rt (ServerCall key_var path rfile) = Ok (JObj fields) ->
  truthy (supplied_key fields) = true ->
  truthy (image_of fields) = true ->
  exists api_key image_b64 mime_type,
    let sent_by_app :=
      gemini_request rt App.GEMINI_MODEL 4096 120 api_key image_b64 mime_type in
    let sent_by_server :=
      gemini_request rt Server.MODEL 2048 60 api_key image_b64 mime_type in
    calls tr (App.gemini_proxy rt key_var get_json) = [sent_by_app] /\
    calls tr' (Server.do_POST rt key_var path rfile) = [sent_by_server] /\
    (tr sent_by_app = tr' sent_by_server ->
     (forall code e, tr sent_by_app <> HTTPError code (Raise e)) ->
     answer tr (App.gemini_proxy rt key_var get_json)
     = answer tr' (Server.do_POST rt key_var path rfile)) /\
    (forall code e,
       tr sent_by_app = HTTPError code (Raise e) ->
       tr' sent_by_server = HTTPError code (Raise e) ->
       answer tr (App.gemini_proxy rt key_var get_json) = Escapes e /\
       answer tr' (Server.do_POST rt key_var path rfile)
       = error_reply 500 (exn_str rt e)).
Proof.
  intros Henv Hpath -> Hpay Hkey Himg.
  exists (supplied_key fields), (image_of fields), (mime_of fields). cbv zeta.
  pose proof (handle_proceeds rt (AppCall key_var (Ok (JObj fields))) fields I
                eq_refl) as Ha.
  simpl in Ha. rewrite Henv in Ha. specialize (Ha Hkey Himg).
  assert (Server.do_POST rt key_var path rfile =
          UrlOpen (gemini_request rt Server.MODEL 2048 60 (supplied_key fields)
                     (image_of fields) (mime_of fields))
            (fun out => Done (Server.after_urlopen rt out))) as Hs.
  { destruct rfile as [raw|e]; [|done]. simpl in Hpay.
    unfold Server.do_POST. rewrite decide_True by done.
    unfold Server.before_urlopen. step_result.
    rewrite Hpay. cbn [mbind result_bind get].
    fold (supplied_key fields) (image_of fields) (mime_of fields).
    by rewrite Hkey, Himg. }
  rewrite Ha, Hs. split; [done|]. split; [done|].
  unfold answer. simpl. split.
  - intros <- Hout.
    exact (after_call_agrees rt (AppCall key_var (Ok (JObj fields)))
             (ServerCall key_var path rfile) _ Hout).
  - by intros code e -> ->.
Qed.

Lemma files_agree_witness :
  exists api_key image_b64 mime_type,
    calls (replies (upstream_body text_five))
      (App.gemini_proxy Sample.python None (Ok (JObj fields_full)))
    = [gemini_request Sample.python App.GEMINI_MODEL 4096 120
         api_key image_b64 mime_type] /\
    calls (replies (upstream_body text_five))
      (Server.do_POST Sample.python None (py "/api/gemini")
         (Ok (encode body_full)))
    = [gemini_request Sample.python Server.MODEL 2048 60
         api_key image_b64 mime_type] /\
    answer (replies (upstream_body text_five))
      (App.gemini_proxy Sample.python None (Ok (JObj fields_full)))
    = answer (replies (upstream_body text_five))
        (Server.do_POST Sample.python None (py "/api/gemini")
           (Ok (encode body_full))).
Proof.
  destruct (files_agree Sample.python (replies (upstream_body text_five))
              (replies (upstream_body text_five)) None (py "/api/gemini")
              (Ok (JObj fields_full)) (Ok (encode body_full)) fields_full
              eq_refl eq_refl eq_refl eq_refl eq_refl eq_refl)
    as (k & img & m & Ha & Hs & Hsame & _).
  exists k, img, m. split; [exact Ha|]. split; [exact Hs|].
  apply (Hsame eq_refl). intros code e H. discriminate H.
Defined.

(** *** What the caller is told about an unusable reply *)

(** X9: when the upstream reply is an object without [candidates] (as for a
    blocked prompt), the answer is 500 with the message
    [Failed to parse Gemini response: 'candidates']; when [candidates] is an
    empty list, the message ends in [list index out of range]. *)
Theorem missing_candidates_diagnosis rt tr i req raw reply_fields :
  calls tr (handle rt i) = [req] ->
  tr req = Fetched raw ->
  json_loads_bytes rt raw = Ok (JObj reply_fields) ->
  (has_key reply_fields (py "candidates") = false ->
   answer tr (handle rt i) =
     error_reply 500
       (py "Failed to parse Gemini response: "
          ++ squote :: py "candidates" ++ [squote])) /\
  (has_key reply_fields (py "candidates") = true ->
   dict_get reply_fields (py "candidates") JNull = JArr [] ->
   answer tr (handle rt i) =
     error_reply 500
       (py "Failed to parse Gemini response: list index out of range")).
Proof.
  intros Hcalls Hout Hraw.
  rewrite (answer_of_call _ _ _ _ Hcalls), Hout.
  rewrite after_call_fetched. unfold on_response, loaded_rows. step_result.
  rewrite Hraw. step_result. unfold envelope_text. cbn [getitem].
  split.
  - by intros ->.
  - by intros -> ->.
Qed.

Lemma missing_candidates_diagnosis_witness :
  answer (replies body_no_candidates)
    (handle MoreSample.python (AppCall None (Ok (JObj fields_full))))
  = error_reply 500 (py "Failed to parse Gemini response: 'candidates'") /\
  answer (replies body_empty_candidates)
    (handle MoreSample.python (AppCall None (Ok (JObj fields_full))))
  = error_reply 500
      (py "Failed to parse Gemini response: list index out of range").
Proof.
  split.
  - exact (proj1 (missing_candidates_diagnosis MoreSample.python
                    (replies body_no_candidates)
                    (AppCall None (Ok (JObj fields_full))) _
                    body_no_candidates [] eq_refl eq_refl eq_refl) eq_refl).
  - exact (proj2 (missing_candidates_diagnosis MoreSample.python
                    (replies body_empty_candidates)
                    (AppCall None (Ok (JObj fields_full))) _
                    body_empty_candidates [(py "candidates", JArr [])]
                    eq_refl eq_refl eq_refl) eq_refl eq_refl).
Defined.

(** X10: the prefix [Failed to parse Gemini response: ] is given only to a
    [JSONDecodeError], [KeyError] or [IndexError].  When the text of the
    envelope is not a string, or the reply is JSON but not an object, the
    answer is 500 with the bare text of the exception. *)
Theorem type_errors_have_no_prefix rt tr i req raw result :
  calls tr (handle rt i) = [req] ->
  tr req = Fetched raw ->
  json_loads_bytes rt raw = Ok result ->
  (forall v, envelope_text result = Ok v -> (forall t, v <> JStr t) ->
     answer tr (handle rt i) =
       error_reply 500 (describe rt (AttributeError v (py "replace")))) /\
  ((forall reply_fields, result <> JObj reply_fields) ->
   answer tr (handle rt i) =
     error_reply 500
       (describe rt (TypeError result (Key (py "candidates"))))).
Proof.
  intros Hcalls Hout Hraw.
  rewrite (answer_of_call _ _ _ _ Hcalls), Hout.
  rewrite after_call_fetched. unfold on_response, loaded_rows. step_result.
  rewrite Hraw. step_result. split.
  - intros v Hv Hstr. rewrite Hv. step_result.
    destruct v; try done. by destruct (Hstr s).
  - intros Hkind. destruct result; try done. by destruct (Hkind fields).
Qed.

Lemma type_errors_have_no_prefix_witness :
  answer (replies body_null_text)
    (handle MoreSample.python (AppCall None (Ok (JObj fields_full))))
  = error_reply 500 (py "'NoneType' object has no attribute 'replace'").
Proof.
  refine (proj1 (type_errors_have_no_prefix MoreSample.python
                   (replies body_null_text)
                   (AppCall None (Ok (JObj fields_full))) _
                   body_null_text (envelope JNull) eq_refl eq_refl eq_refl)
            JNull eq_refl _).
  intros t H. discriminate H.
Defined.

(** X11: an exception of the transport that is neither [HTTPError] nor
    [URLError] (a timeout while reading, say) is answered 500 with its text,
    after the one call; nothing is tried again. *)
Theorem transport_failure_is_500 rt tr i req msg :
  calls tr (handle rt i) = [req] ->
  tr req = Failed (OtherException msg) ->
  run tr (handle rt i) = (Answer (error_reply 500 msg), [req]).
Proof.
  intros Hcalls Hout.
  pose proof (answer_of_call _ _ _ _ Hcalls) as Hanswer.
  rewrite Hout, after_call_failed in Hanswer. unfold answer, calls in *.
  destruct (run tr (handle rt i)) as [r cs]. simpl in *. by subst.
Qed.

Lemma transport_failure_is_500_witness :
  run (fails (OtherException (py "The read operation timed out")))
    (handle Sample.python (AppCall None (Ok (JObj fields_full))))
  = (Answer (error_reply 500 (py "The read operation timed out")),
     [request_with Sample.python (AppCall None (Ok (JObj fields_full)))
        (JStr (py "REQ")) fields_full]).
Proof.
  exact (transport_failure_is_500 Sample.python
           (fails (OtherException (py "The read operation timed out")))
           (AppCall None (Ok (JObj fields_full))) _
           (py "The read operation timed out") eq_refl eq_refl).
Defined.

(** *** Fences without a language tag *)

(** X12: a text wrapped in fences without a language tag is unwrapped as
    well: when the inside holds no backtick and does not begin with [json],
    the normalised text is the inside, trimmed. *)
Theorem normalize_generic_fence u :
  tick_free u = true ->
  starts_with (py "json") u = false ->
  normalize (fence ++ u ++ fence) = strip u.
Proof.
  intros Hfree Hjson. pose proof (tick_free_no_fence u Hfree) as Hu.
  unfold normalize.
  rewrite (replace_absent fence_json); [|done|].
  - rewrite replace_prefix by done. rewrite app_nil_l.
    by rewrite replace_fence_end.
  - change (fence ++ u ++ fence) with (tick :: tick :: tick :: (u ++ fence)).
    cbn [contains].
    rewrite (fence_json_absent u Hu), orb_false_r.
    change fence_json with (tick :: tick :: tick :: py "json").
    assert (starts_with (tick :: tick :: tick :: py "json")
              (tick :: tick :: tick :: u ++ fence) = false) as ->.
    { cbn [starts_with]. rewrite !N.eqb_refl. cbn [andb].
      destruct (starts_with (py "json") (u ++ fence)) eqn:E; [|done].
      apply starts_with_app_inv in E as [E|(c & w' & Hw & Hin)]; [congruence|].
      injection Hw as <- _. exfalso. revert Hin. by vm_compute; intuition. }
    assert (starts_with (tick :: tick :: tick :: py "json")
              (tick :: tick :: u ++ fence) = false) as ->.
    { cbn [starts_with]. rewrite !N.eqb_refl. cbn [andb].
      by apply (tick_free_head (py "json")). }
    assert (starts_with (tick :: tick :: tick :: py "json")
              (tick :: u ++ fence) = false) as ->.
    { cbn [starts_with]. rewrite !N.eqb_refl. cbn [andb].
      by apply (tick_free_head (tick :: py "json")). }
    done.
Qed.

Lemma normalize_generic_fence_witness :
  normalize text_generic_fence = py "[" ++ doc_row ++ py "]".
Proof.
  exact (normalize_generic_fence
           ([newline] ++ py "[" ++ doc_row ++ py "]" ++ [newline])
           eq_refl eq_refl).
Defined.

(** *** What server.py writes *)

Import ServerWire.

Lemma answer_action_map {A B} (f : A -> B) tr (a : action A) :
  answer tr (action_map f a) = f (answer tr a) /\
  calls tr (action_map f a) = calls tr a.
Proof.
  unfold answer, calls. induction a as [r|req k IH]; [done|]. simpl.
  specialize (IH (tr req)).
  destruct (run tr (action_map f (k (tr req)))) as [r1 c1],
           (run tr (k (tr req))) as [r2 c2].
  simpl in *. destruct IH as [-> ->]. done.
Qed.

Lemma has_cors_between pre post : has_cors (pre ++ send_cors_headers ++ post).
Proof.
  intros h Hin. apply in_or_app. right. apply in_or_app. by left.
Qed.

Lemma headerless_has_no_cors (out : list sent) :
  headers_sent out = [] -> ~ has_cors out.
Proof.
  intros Hnone Hcors.
  specialize (Hcors (SendHeader (py "Access-Control-Allow-Origin") (py "*"))
                ltac:(by left)).
  induction out as [|x out IH]; [done|].
  destruct Hcors as [->|Hin]; [done|].
  apply IH; [|done]. by destruct x.
Qed.

Lemma transmit_error code message :
  transmit (Server._error code message) = ServerWire._error code message.
Proof. done. Qed.

Lemma transmit_rows rows : transmit (reply 200 "rows" rows) = send_rows rows.
Proof. done. Qed.

Lemma json_answer_well_formed code j :
  well_formed
    ([SendResponse code; SendHeader (py "Content-Type") (py "application/json")]
     ++ send_cors_headers ++ [EndHeaders; WriteJson j]).
Proof.
  exists code,
    [(py "Content-Type", py "application/json");
     (py "Access-Control-Allow-Origin", py "*");
     (py "Access-Control-Allow-Methods", py "POST, GET, OPTIONS");
     (py "Access-Control-Allow-Headers", py "Content-Type")],
    [WriteJson j].
  split; [done|]. split; [done|simpl; lia].
Qed.

(** On its route [Server.do_POST] answers with rows or with an error
    object. *)
Lemma server_route_answer rt tr key_var rfile :
  (exists items,
     answer tr (Server.do_POST rt key_var (py "/api/gemini") rfile)
     = reply 200 "rows" (JArr items)) \/
  (exists code message,
     answer tr (Server.do_POST rt key_var (py "/api/gemini") rfile)
     = Server._error code message).
Proof.
  unfold Server.do_POST. rewrite decide_True by done.
  destruct (Server.before_urlopen rt rfile) as [[r|req]|e] eqn:E.
  - apply server_early_return in E as [m ->]. right. by exists 400%Z, m.
  - unfold answer. simpl.
    destruct (after_call_cases rt (ServerCall key_var [] rfile) (tr req))
      as [[items H]|[(code & b & m & _ & H)|[[m H]|[[m H]|[e' H]]]]];
      simpl in H; simplify_eq; rewrite H; eauto.
  - right. by eexists _, _.
Qed.

(** X13: whatever the request and the upstream do, [do_POST] on its route
    writes one well-ordered JSON response, the one of [_error] or of the
    success block with an array as rows, and it carries the content type
    and the three CORS headers; so do [do_OPTIONS] and every [_error].  Off
    the route [do_POST] sends the bare 404, without headers or body, and
    calls nothing. *)
Theorem server_responses_carry_cors rt tr key_var rfile :
  (well_formed do_OPTIONS /\ has_cors do_OPTIONS /\ written do_OPTIONS = []) /\
  (forall code message,
     well_formed (ServerWire._error code message) /\
     has_cors (ServerWire._error code message)) /\
  (let out := answer tr (ServerWire.do_POST rt key_var (py "/api/gemini") rfile) in
   well_formed out /\ has_cors out /\
   In (py "Content-Type", py "application/json") (headers_sent out) /\
   ((exists code message, out = ServerWire._error code message) \/
    (exists items, out = send_rows (JArr items)))) /\
  (forall path,
     path <> py "/api/gemini" ->
     run tr (ServerWire.do_POST rt key_var path rfile)
     = ([SendResponse 404; EndHeaders], [])).
Proof.
  split; [|split; [|split]].
  - split; [|split; [apply (has_cors_between [_] [_])|done]].
    exists 200%Z,
      [(py "Access-Control-Allow-Origin", py "*");
       (py "Access-Control-Allow-Methods", py "POST, GET, OPTIONS");
       (py "Access-Control-Allow-Headers", py "Content-Type")], [].
    split; [done|]. split; [done|simpl; lia].
  - intros code message. split.
    + apply json_answer_well_formed.
    + apply (has_cors_between [_; _] [_; _]).
  - cbv zeta. unfold ServerWire.do_POST.
    rewrite (proj1 (answer_action_map _ _ _)).
    destruct (server_route_answer rt tr key_var rfile)
      as [[items ->]|(code & m & ->)].
    + rewrite transmit_rows. split; [apply json_answer_well_formed|].
      split; [apply (has_cors_between [_; _] [_; _])|].
      split; [by left|]. right. by exists items.
    + rewrite transmit_error. split; [apply json_answer_well_formed|].
      split; [apply (has_cors_between [_; _] [_; _])|].
      split; [by left|]. left. by exists code, m.
  - intros path Hpath. unfold ServerWire.do_POST, Server.do_POST.
    by rewrite decide_False.
Qed.

Lemma server_responses_carry_cors_witness :
  has_cors
    (answer (rejects 429 doc_rate_limited)
       (ServerWire.do_POST Sample.python None (py "/api/gemini")
          (Ok (encode body_full)))) /\
  run (rejects 429 doc_rate_limited)
    (ServerWire.do_POST Sample.python None (py "/api/status")
       (Ok (encode body_full)))
  = ([SendResponse 404; EndHeaders], []).
Proof.
  pose proof (server_responses_carry_cors Sample.python
                (rejects 429 doc_rate_limited) None (Ok (encode body_full)))
    as (_ & _ & (_ & Hcors & _) & Hoff).
  split; [exact Hcors|].
  apply Hoff. discriminate.
Defined.

(** X14: [do_GET] serves the page at [/] and [/index.html] only.  A
    response is well ordered and has status 200 or 404; it has status 200
    exactly when the path is one of the two and the file could be read, and
    then the body is the file's content and the CORS headers are sent; every
    404 goes out without any header.  For another path the file plays no
    part. *)
Theorem do_GET_serves_index_only path file out :
  do_GET path file = Ok out ->
  well_formed out /\
  (status_sent out = Some 200%Z \/ status_sent out = Some 404%Z) /\
  (status_sent out = Some 200%Z <->
   (path = py "/" \/ path = py "/index.html") /\
   exists content, file = Content content) /\
  (forall content,
     status_sent out = Some 200%Z -> file = Content content ->
     written out = [Write content] /\ has_cors out) /\
  (status_sent out = Some 404%Z -> headers_sent out = [] /\ ~ has_cors out) /\
  (~ (path = py "/" \/ path = py "/index.html") ->
   forall file', do_GET path file' = Ok out /\ written out = []).
Proof.
  unfold do_GET. destruct (bool_decide _) eqn:Hpath.
  - apply bool_decide_eq_true_1 in Hpath.
    destruct file as [content| |e]; intros [= <-].
    + split.
      { exists 200%Z,
          [(py "Content-Type", py "text/html; charset=utf-8");
           (py "Access-Control-Allow-Origin", py "*");
           (py "Access-Control-Allow-Methods", py "POST, GET, OPTIONS");
           (py "Access-Control-Allow-Headers", py "Content-Type")],
          [Write content].
        split; [done|]. split; [done|simpl; lia]. }
      split; [by left|]. split; [split; eauto|].
      split.
      { intros c _ [= <-]. split; [done|apply (has_cors_between [_; _] [_; _])]. }
      split; [done|]. intros Hoff. by destruct Hoff.
    + split.
      { exists 404%Z, [], [Write (list_byte_of_string "index.html not found")].
        split; [done|]. split; [done|simpl; lia]. }
      split; [by right|]. split.
      { split; [done|]. by intros [_ [c Hc]]. }
      split; [done|]. split.
      { intros _. split; [done|]. by apply headerless_has_no_cors. }
      intros Hoff. by destruct Hoff.
  - apply bool_decide_eq_false_1 in Hpath. intros [= <-].
    split.
    { exists 404%Z, [], []. split; [done|]. split; [done|simpl; lia]. }
    split; [by right|]. split.
    { split; [done|]. by intros [Hwanted _]. }
    split; [done|]. split.
    { intros _. split; [done|]. by apply headerless_has_no_cors. }
    done.
Qed.

Lemma do_GET_serves_index_only_witness :
  written [SendResponse 404; EndHeaders] = [] /\
  do_GET (py "/api/status") (Content (encode (py "<html>")))
  = Ok [SendResponse 404; EndHeaders].
Proof.
  pose proof (do_GET_serves_index_only (py "/api/status") FileNotFoundError
                [SendResponse 404; EndHeaders] eq_refl)
    as (_ & _ & _ & _ & _ & Hoff).
  assert (~ (py "/api/status" = py "/" \/ py "/api/status" = py "/index.html"))
    as Hother by (intros [H|H]; discriminate H).
  destruct (Hoff Hother (Content (encode (py "<html>")))) as [Hget Hnone].
  split; [exact Hnone|exact Hget].
Defined.

(** X15: [do_GET] sends nothing when reading the file fails otherwise than
    by [FileNotFoundError]: the exception leaves the handler before the
    status line, and this happens only on the two paths of the page. *)
Theorem do_GET_failure_sends_nothing path file e :
  do_GET path file = Raise e <->
  (path = py "/" \/ path = py "/index.html") /\ file = ReadFails e.
Proof.
  unfold do_GET. destruct (bool_decide _) eqn:Hpath.
  - apply bool_decide_eq_true_1 in Hpath.
    destruct file as [content| |e']; split; try done.
    + by intros [_ H].
    + by intros [_ H].
    + by intros [= ->].
    + by intros [_ [= ->]].
  - apply bool_decide_eq_false_1 in Hpath. split; [done|]. by intros [H _].
Qed.

Lemma do_GET_failure_sends_nothing_witness :
  do_GET (py "/index.html") (ReadFails (OtherException (py "Permission denied")))
  = Raise (OtherException (py "Permission denied")).
Proof.
  apply (proj2 (do_GET_failure_sends_nothing (py "/index.html")
                  (ReadFails (OtherException (py "Permission denied")))
                  (OtherException (py "Permission denied")))).
  split; [by right|reflexivity].
Defined.
